(** * mxvm: view-model registry, locator, Binder lifecycle and hook entry point

    A shallow embedding of [src/mxvm.tsx] (and of the older Binder kept in the
    repository, see [Module Legacy]).  JavaScript objects are references, the
    ObservableMap of the registry is a finite map, the observable Sets it
    holds are insertion-ordered lists (the order in which [Array.from] lists
    a Set), and the code that mutates the registry or calls back into user
    code is written in a small state monad over a [World].

    What is taken from the libraries rather than from the source: a MobX
    observable Map behaves as the built-in one, and a Set made by
    [observable.set()] looks a value up as it is given but stores what its
    deep enhancer makes of it (the value itself, or a new observable copy of
    a plain object, array, Map or Set); React calls the constructor, then
    [componentDidMount], then [componentDidUpdate] after every change of
    props, then [componentWillUnmount]; [setState] puts the state in, has the
    component rendered again and then runs its callback; [useState] keeps
    the value of the first run and [useEffect(f, [])] runs [f] after the
    first run and its cleanup at the unmount.  Lifecycle methods and
    resolvers are code of the integrator: a call of one is recorded as an
    event, with the registry it can see. *)

From stdpp Require Import gmap strings list fin_maps countable.

(** ** Identifiers and instances *)

(** [ViewModelIdentifier<T> = string | symbol | Newable<T> | Abstract<T>]:
    strings compare by value, symbols and class objects by reference. *)
Inductive ViewModelIdentifier : Type :=
  | IdString (s : string)
  | IdSymbol (sym : positive)
  | IdClass (ctor : positive).

#[global] Instance ViewModelIdentifier_eq_dec : EqDecision ViewModelIdentifier.
Proof. solve_decision. Defined.

#[global] Instance ViewModelIdentifier_countable : Countable ViewModelIdentifier.
Proof.
  refine (inj_countable'
    (fun i => match i with
              | IdString s => inl s
              | IdSymbol n => inr (inl n)
              | IdClass n => inr (inr n)
              end)
    (fun x => match x with
              | inl s => IdString s
              | inr (inl n) => IdSymbol n
              | inr (inr n) => IdClass n
              end) _).
  by intros [].
Defined.

(** A view-model is an object; a Set and [!=] tell two of them apart by
    reference.  What MobX makes of an object depends on what it is: an
    instance of a class (or anything else MobX leaves alone: an object that
    is observable already, a function), a plain structure (an object
    literal, an array, a Map, a Set), or one of the observable copies MobX
    has made of a plain structure, named by its source and a serial number. *)
Inductive ViewModel : Type :=
  | Instance (ref : positive)
  | Plain (ref : positive)
  | Observable (source : positive) (serial : nat).

#[global] Instance ViewModel_eq_dec : EqDecision ViewModel.
Proof. solve_decision. Defined.

(** [isPlainObject(v) || Array.isArray(v) || isES6Map(v) || isES6Set(v)],
    for a [v] that is not observable. *)
Definition is_plain (v : ViewModel) : bool :=
  match v with
  | Plain _ => true
  | _ => false
  end.

(** ** The observable Set held under one identifier *)

Module ObservableSet.

(** A serial number that no observable copy among [heap] carries. *)
Definition next_serial (heap : list ViewModel) : nat :=
  foldr (fun o n => match o with
                    | Observable _ serial => max (S serial) n
                    | _ => n
                    end) 0 heap.

(** [deepEnhancer], the enhancer of a Set made by [observable.set()]: a
    plain structure is turned into an observable copy, a new object, which
    the model names by the first serial number no object of [heap] carries;
    any other value is handed back. *)
Definition deepEnhancer (heap : list ViewModel) (value : ViewModel) : ViewModel :=
  match value with
  | Plain source => Observable source (next_serial heap)
  | _ => value
  end.

(** [ObservableSet.add]: [if (!this.has(value)) this.data_.add(this.enhancer_(value))].
    The value is looked up as given; what is stored, as the last element in
    iteration order, is what the enhancer makes of it. *)
Definition add (heap : list ViewModel) (model : ViewModel) (instances : list ViewModel)
    : list ViewModel :=
  if decide (model ∈ instances) then instances
  else instances ++ [deepEnhancer heap model].

(** [ObservableSet.delete]: [if (this.has(value)) this.data_.delete(value)]. *)
Definition delete (model : ViewModel) (instances : list ViewModel) : list ViewModel :=
  filter (fun x => x ≠ model) instances.

(** [Set.prototype.size]. *)
Definition size (instances : list ViewModel) : nat := length instances.

End ObservableSet.

(** ** DefaultViewModelRegistry *)

(** The state of a [DefaultViewModelRegistry] is its [_buckets] field. *)
Abbreviation Buckets := (gmap ViewModelIdentifier (list ViewModel)) (only parsing).

(** The objects the Sets of the registry hold. *)
Definition objects (_buckets : Buckets) : list ViewModel :=
  mjoin ((map_to_list _buckets).*2).

(** [addInstance].  The Set found (or created and stored) under the identifier
    is shared with the map, so adding to it updates the entry.  A copy the
    Set makes is a new object: it is none of the objects held so far. *)
Definition addInstance (identifier : ViewModelIdentifier) (model : ViewModel)
    (_buckets : Buckets) : Buckets :=
  let heap := objects _buckets in
  let '(instances, _buckets) :=
    match _buckets !! identifier with
    | Some instances => (instances, _buckets)
    | None => ([], <[identifier := []]> _buckets)
    end in
  <[identifier := ObservableSet.add heap model instances]> _buckets.

(** [removeInstance]. *)
Definition removeInstance (identifier : ViewModelIdentifier) (model : ViewModel)
    (_buckets : Buckets) : Buckets :=
  match _buckets !! identifier with
  | Some instances =>
      let instances := ObservableSet.delete model instances in
      let _buckets := <[identifier := instances]> _buckets in
      if decide (ObservableSet.size instances = 0)
      then delete identifier _buckets
      else _buckets
  | None => _buckets
  end.

(** The [instances] getter hands out the map itself. *)
Definition instances (_buckets : Buckets) : Buckets := _buckets.

(** ** ViewModelLocator *)

(** [locateMany]: [Array.from] of the Set under the identifier, or of a new
    empty Set. *)
Definition locateMany (registry : Buckets) (vmIdentifier : ViewModelIdentifier)
    : list ViewModel :=
  default [] (instances registry !! vmIdentifier).

(** [locateFirst]: element 0 of [locateMany], or [null]. *)
Definition locateFirst (registry : Buckets) (vmIdentifier : ViewModelIdentifier)
    : option ViewModel :=
  head (locateMany registry vmIdentifier).

(** ** The world the components run in *)

(** The props a caller spreads onto a bound component besides the Binder's
    own ([viewComponent] and the [{...props}] rest), as plain data. *)
Abbreviation ExtraProps := (list (string * string)) (only parsing).

(** [BoundViewModelLifecycle]. *)
Inductive LifecycleMethod : Type := onActivate | onViewLoaded | onDeactivate.

#[global] Instance LifecycleMethod_eq_dec : EqDecision LifecycleMethod.
Proof. solve_decision. Defined.

(** What a lifecycle method can be handed: the Binder's props object, its
    [viewRef], or (older Binder only) an array of such. *)
#[warnings="-register-all"]
Inductive Value : Type :=
  | VProps (viewModel : option ViewModel) (viewModelIdentifier : ViewModelIdentifier)
           (rest : ExtraProps)
  | VRef (viewRef : positive)
  | VArray (items : list Value).

(** What user code and observers of the registry get to see, each with the
    registry as it is at that moment: a lifecycle method being called, the
    resolver being called, the end of a registry [@action], and the view
    being rendered again after a [setState]. *)
Inductive Event : Type :=
  | Dispatch (target : ViewModel) (method : LifecycleMethod) (args : list Value)
             (seen : Buckets)
  | ResolverCall (vmIdentifier : ViewModelIdentifier) (props : option ExtraProps)
                 (result : ViewModel) (seen : Buckets)
  | Added (identifier : ViewModelIdentifier) (model : ViewModel) (after : Buckets)
  | Removed (identifier : ViewModelIdentifier) (model : ViewModel) (after : Buckets)
  | Rendered (model : ViewModel) (seen : Buckets).

(** [buckets] is the state of the one registry object, [implements] says
    which lifecycle methods each view-model object defines ([Partial<...>]),
    [trace] lists the events so far, oldest first. *)
Record World : Type := {
  buckets : Buckets;
  implements : ViewModel → LifecycleMethod → bool;
  trace : list Event
}.

Definition M (A : Type) : Type := World → A * World.

Definition ret {A} (a : A) : M A := fun w => (a, w).

Definition bind {A B} (c : M A) (k : A → M B) : M B :=
  fun w => let '(a, w') := c w in k a w'.

Declare Scope mxvm_scope.
Delimit Scope mxvm_scope with mxvm.
Notation "x <- c ;; k" := (bind c (fun x => k))
  (at level 100, c at next level, right associativity) : mxvm_scope.
Notation "c ;; k" := (bind c (fun _ => k))
  (at level 100, right associativity) : mxvm_scope.
Open Scope mxvm_scope.

Definition emit (e : Event) : M unit :=
  fun w => (tt, {| buckets := buckets w; implements := implements w;
                   trace := trace w ++ [e] |}).

Definition get_buckets : M Buckets := fun w => (buckets w, w).

Definition put_buckets (b : Buckets) : M unit :=
  fun w => (tt, {| buckets := b; implements := implements w; trace := trace w |}).

(** [ViewModelResolver]: code of the integrator.  It may read whatever it
    likes (the registry through a locator, its own container) and hands back
    an instance; its call is an event. *)
Definition ViewModelResolver : Type :=
  ViewModelIdentifier → option ExtraProps → World → ViewModel.

Definition call_resolver (viewModelResolver : ViewModelResolver)
    (vmIdentifier : ViewModelIdentifier) (props : option ExtraProps) : M ViewModel :=
  fun w =>
    let result := viewModelResolver vmIdentifier props w in
    (result, snd (emit (ResolverCall vmIdentifier props result (buckets w)) w)).

(** The [ViewModelRegistry] interface. *)
Record ViewModelRegistry : Type := {
  registry_addInstance : ViewModelIdentifier → ViewModel → M unit;
  registry_removeInstance : ViewModelIdentifier → ViewModel → M unit;
  registry_instances : M Buckets
}.

(** The [DefaultViewModelRegistry] object of the world: each method is an
    [@action] on [buckets], seen by observers when it ends. *)
Definition DefaultViewModelRegistry : ViewModelRegistry := {|
  registry_addInstance identifier model :=
    b <- get_buckets ;;
    put_buckets (addInstance identifier model b) ;;
    emit (Added identifier model (addInstance identifier model b));
  registry_removeInstance identifier model :=
    b <- get_buckets ;;
    put_buckets (removeInstance identifier model b) ;;
    emit (Removed identifier model (removeInstance identifier model b));
  registry_instances :=
    b <- get_buckets ;;
    ret (instances b)
|}.

(** ** Binder *)

Record BinderProps : Type := {
  viewModel : option ViewModel;
  viewModelIdentifier : ViewModelIdentifier;
  viewModelResolver : ViewModelResolver;
  onUnbind : ViewModel → M unit;
  onBind : ViewModel → M unit;
  rest : ExtraProps
}.

(** [this.props], [this.state.model] and [this.viewRef]. *)
Record Binder : Type := {
  props : BinderProps;
  state_model : ViewModel;
  viewRef : positive
}.

(** [resolveModel]: [viewModel || viewModelResolver(viewModelIdentifier, props)];
    an object is truthy, so the resolver runs only without a [viewModel]. *)
Definition resolveModel (props : BinderProps) : M ViewModel :=
  match viewModel props with
  | Some viewModel => ret viewModel
  | None => call_resolver (viewModelResolver props) (viewModelIdentifier props)
                          (Some (rest props))
  end.

(** [constructor]. *)
Definition Binder_constructor (props : BinderProps) (viewRef : positive) : M Binder :=
  model <- resolveModel props ;;
  onBind props model ;;
  ret {| props := props; state_model := model; viewRef := viewRef |}.

(** [notifyOfViewLifecycle]: [funcResolver] picks a method of the bound
    model; it is called, with the arguments spread, only when it is there. *)
Definition notifyOfViewLifecycle (this : Binder) (funcResolver : LifecycleMethod)
    (args : list Value) : M unit :=
  fun w =>
    let bindingLifecycle := state_model this in
    if implements w bindingLifecycle funcResolver
    then emit (Dispatch bindingLifecycle funcResolver args (buckets w)) w
    else (tt, w).

Definition props_value (props : BinderProps) : Value :=
  VProps (viewModel props) (viewModelIdentifier props) (rest props).

(** [componentDidMount]. *)
Definition componentDidMount (this : Binder) : M unit :=
  notifyOfViewLifecycle this onActivate [props_value (props this)] ;;
  notifyOfViewLifecycle this onViewLoaded [VRef (viewRef this)].

(** [render]: the view gets the ref, the bound model and the other props. *)
Definition render (this : Binder) : positive * ViewModel * ExtraProps :=
  (viewRef this, state_model this, rest (props this)).

(** [setState(state, callback)]: React puts the state in, renders the
    component again, so the view gets the model of the new state, and runs
    the callback after that. *)
Definition setState (this : Binder) (model : ViewModel) (callback : M unit) : M Binder :=
  let this := {| props := props this; state_model := model; viewRef := viewRef this |} in
  (fun w => emit (Rendered (snd (fst (render this))) (buckets w)) w) ;;
  callback ;;
  ret this.

(** [componentDidUpdate]: [this] already carries the new props.  What is
    handed back is the component once React has carried out the [setState]. *)
Definition componentDidUpdate (this : Binder) (prevProps : BinderProps) : M Binder :=
  if decide (viewModel (props this) ≠ viewModel prevProps) then
    notifyOfViewLifecycle this onDeactivate [] ;;
    onUnbind (props this) (state_model this) ;;
    newModel <- resolveModel (props this) ;;
    setState this newModel (onBind (props this) newModel)
  else ret this.

(** [componentWillUnmount]. *)
Definition componentWillUnmount (this : Binder) : M unit :=
  notifyOfViewLifecycle this onDeactivate [] ;;
  onUnbind (props this) (state_model this).

(** A component receiving new props: they replace [this.props], then
    [componentDidUpdate] runs with the previous ones. *)
Definition receiveProps (this : Binder) (nextProps : BinderProps) : M Binder :=
  componentDidUpdate
    {| props := nextProps; state_model := state_model this; viewRef := viewRef this |}
    (props this).

(** ** Context and the decorator *)

Record MxvmContextProps : Type := {
  resolver : option ViewModelResolver;
  registry : option ViewModelRegistry
}.

(** A function body either returns or throws an [Error] with a message. *)
Inductive Completion (A : Type) : Type :=
  | Normal (value : A)
  | Throw (message : string).
Arguments Normal {A} value.
Arguments Throw {A} message.

(** The props a caller gives the bound component, [model] apart: those that
    carry the name of one of the Binder's own props, when the caller passes
    such (a [viewModel], which may be [undefined], an identifier, a resolver,
    a callback), and the others, data of the view under names that are none
    of the Binder's own.  The view component is left out of the model, and
    with it a [viewComponent] prop. *)
Record CallerProps : Type := {
  own_viewModel : option (option ViewModel);
  own_viewModelIdentifier : option ViewModelIdentifier;
  own_viewModelResolver : option ViewModelResolver;
  own_onUnbind : option (ViewModel → M unit);
  own_onBind : option (ViewModel → M unit);
  others : ExtraProps
}.

(** [bindViewModel(vmIdentifier)(component)]: what the function under
    [MxvmContext.Consumer] does with the context it is given; on success the
    props of the [<Binder>] element it returns.  [{...props}] comes last in
    the element, so a prop of the caller replaces the Binder's prop of the
    same name. *)
Definition bindViewModel (vmIdentifier : ViewModelIdentifier)
    (model : option ViewModel) (props : CallerProps) (context : MxvmContextProps)
    : Completion BinderProps :=
  match resolver context with
  | None => Throw "Resolver has not been provided!"
  | Some resolver =>
      match registry context with
      | None => Throw "Registry has not been provided!"
      | Some registry =>
          Normal {| viewModel := default model (own_viewModel props);
                    viewModelIdentifier :=
                      default vmIdentifier (own_viewModelIdentifier props);
                    viewModelResolver := default resolver (own_viewModelResolver props);
                    onBind :=
                      default (fun vm => registry_addInstance registry vmIdentifier vm)
                              (own_onBind props);
                    onUnbind :=
                      default (fun vm => registry_removeInstance registry vmIdentifier vm)
                              (own_onUnbind props);
                    rest := others props |}
      end
  end.

(** ** The hook entry point *)

Module Hooks.

Record UseBinderProps : Type := {
  viewModelIdentifier : ViewModelIdentifier;
  viewModelResolver : ViewModelResolver;
  onUnbind : ViewModel → M unit;
  onBind : ViewModel → M unit
}.

(** [useState(initialState)] on the component's state cell: the first
    render stores the initial state, every later render gets what is
    stored and its own [initialState] is dropped. *)
Definition useState (cell : option ViewModel) (initialState : ViewModel)
    : ViewModel * option ViewModel :=
  match cell with
  | Some stored => (stored, Some stored)
  | None => (initialState, Some initialState)
  end.

(** What one run of the hook leaves: the model it returns, the state cell,
    and the function given to [useEffect], which returns its cleanup. *)
Record Render : Type := {
  model : ViewModel;
  cell : option ViewModel;
  effect : M (M unit)
}.

(** [useBinder].  The argument of [useState] is evaluated on every run, so
    the resolver is called on every run. *)
Definition useBinder (p : UseBinderProps) (cell : option ViewModel) : M Render :=
  initialState <- call_resolver (viewModelResolver p) (viewModelIdentifier p) None ;;
  let '(model, cell) := useState cell initialState in
  let notifyOfViewLifecycle (funcResolver : LifecycleMethod) : M unit :=
    fun w =>
      let bindingLifecycle := model in
      if implements w bindingLifecycle funcResolver
      then emit (Dispatch bindingLifecycle funcResolver [] (buckets w)) w
      else (tt, w) in
  ret {| model := model;
         cell := cell;
         effect :=
           onBind p model ;;
           notifyOfViewLifecycle onActivate ;;
           ret (notifyOfViewLifecycle onDeactivate ;;
                onUnbind p model) |}.

(** The props [useViewModel] gives [useBinder]. *)
Definition viewModelBinderProps (vmIdentifier : ViewModelIdentifier)
    (resolver : ViewModelResolver) (registry : ViewModelRegistry) : UseBinderProps :=
  {| viewModelIdentifier := vmIdentifier;
     viewModelResolver := resolver;
     onBind vm := registry_addInstance registry vmIdentifier vm;
     onUnbind vm := registry_removeInstance registry vmIdentifier vm |}.

(** [useViewModel]; [context] is what [useContext(MxvmContext)] returns. *)
Definition useViewModel (vmIdentifier : ViewModelIdentifier)
    (context : MxvmContextProps) (cell : option ViewModel) : M (Completion Render) :=
  match resolver context with
  | None => ret (Throw "Resolver has not been provided!")
  | Some resolver =>
      match registry context with
      | None => ret (Throw "Registry has not been provided!")
      | Some registry =>
          r <- useBinder (viewModelBinderProps vmIdentifier resolver registry) cell ;;
          ret (Normal r)
      end
  end.

(** A mounted function component that calls the hook: its state cell, the
    cleanup of its [useEffect(..., [])], and the model of its last run. *)
Record Fiber : Type := {
  fiber_cell : option ViewModel;
  fiber_cleanup : M unit;
  fiber_model : ViewModel
}.

(** Mount: the first run, then the effect. *)
Definition mount (p : UseBinderProps) : M Fiber :=
  r <- useBinder p None ;;
  cleanup <- effect r ;;
  ret {| fiber_cell := cell r; fiber_cleanup := cleanup; fiber_model := model r |}.

(** A later run, with whatever props it then has: the dependency list [[]]
    never changes, so the effect of this run is dropped. *)
Definition rerender (f : Fiber) (p : UseBinderProps) : M Fiber :=
  r <- useBinder p (fiber_cell f) ;;
  ret {| fiber_cell := cell r; fiber_cleanup := fiber_cleanup f; fiber_model := model r |}.

Fixpoint rerenders (f : Fiber) (ps : list UseBinderProps) : M Fiber :=
  match ps with
  | [] => ret f
  | p :: ps => f' <- rerender f p ;; rerenders f' ps
  end.

(** Unmount: the cleanup of the mount effect. *)
Definition unmount (f : Fiber) : M unit := fiber_cleanup f.

End Hooks.

(** ** The older Binder

    The repository keeps an earlier version of the file.  Its registry
    ([registerInstance], [unregisterInstance], [buckets]), locator,
    constructor, [componentDidUpdate], [componentWillUnmount] and
    [bindViewModel] have the bodies modelled above; what differs is how the
    lifecycle methods are reached on mount. *)

Module Legacy.

(** [notifyOfViewLifecycle]: [action.call(bindingLifecycle, args)] hands
    the rest array over as the one argument. *)
Definition notifyOfViewLifecycle (this : Binder) (funcResolver : LifecycleMethod)
    (args : list Value) : M unit :=
  fun w =>
    let bindingLifecycle := state_model this in
    if implements w bindingLifecycle funcResolver
    then emit (Dispatch bindingLifecycle funcResolver [VArray args] (buckets w)) w
    else (tt, w).

(** [componentWillMount]. *)
Definition componentWillMount (this : Binder) : M unit :=
  notifyOfViewLifecycle this onActivate [props_value (props this)].

(** [componentDidMount]. *)
Definition componentDidMount (this : Binder) : M unit :=
  notifyOfViewLifecycle this onViewLoaded [VRef (viewRef this)].

End Legacy.

(** ** Reading a trace *)

(** The registry an event shows. *)
Definition snapshot (e : Event) : Buckets :=
  match e with
  | Dispatch _ _ _ seen => seen
  | ResolverCall _ _ _ seen => seen
  | Added _ _ after => after
  | Removed _ _ after => after
  | Rendered _ seen => seen
  end.

(** The events of [w'] that [w] does not have yet. *)
Definition events_since (w w' : World) : list Event :=
  drop (length (trace w)) (trace w').

Definition is_dispatch (method : LifecycleMethod) (e : Event) : bool :=
  match e with
  | Dispatch _ m _ _ => bool_decide (m = method)
  | _ => false
  end.

Definition is_resolver_call (e : Event) : bool :=
  match e with ResolverCall _ _ _ _ => true | _ => false end.

Definition is_added (e : Event) : bool :=
  match e with Added _ _ _ => true | _ => false end.

Definition is_removed (e : Event) : bool :=
  match e with Removed _ _ _ => true | _ => false end.

(** How many of [owned] the registry lists under [identifier]. *)
Definition bound_visible (owned : list ViewModel) (identifier : ViewModelIdentifier)
    (registry : Buckets) : nat :=
  length (filter (fun v => v ∈ owned) (locateMany registry identifier)).

(** The states a registry object can be in: it starts empty and changes
    through its two methods only. *)
Inductive reachable : Buckets → Prop :=
  | reachable_empty : reachable ∅
  | reachable_add identifier model b :
      reachable b → reachable (addInstance identifier model b)
  | reachable_remove identifier model b :
      reachable b → reachable (removeInstance identifier model b).

(** An identifier is a key of the map iff instances are listed under it. *)
Definition registry_invariant (b : Buckets) : Prop :=
  ∀ identifier, is_Some (b !! identifier) ↔ locateMany b identifier ≠ [].

(** The context [MxvmProvider] puts around its children. *)
Definition MxvmProvider (resolver : ViewModelResolver) (registry : ViewModelRegistry)
    : MxvmContextProps :=
  {| resolver := Some resolver; registry := Some registry |}.


(** ** A concrete scenario *)

(** An empty registry, no event yet, every view-model object with all three
    lifecycle methods. *)
Definition world0 : World :=
  {| buckets := ∅; implements := fun _ _ => true; trace := [] |}.

(** A resolver over a container in singleton scope: one object per
    identifier, here instance 1 of some class. *)
Definition singleton_resolver : ViewModelResolver := fun _ _ _ => Instance 1.

(** A resolver that makes a new instance of a class on every call. *)
Definition transient_resolver : ViewModelResolver :=
  fun _ _ w => Instance (Pos.of_succ_nat (length (trace w))).

(** A resolver that hands out an object literal. *)
Definition literal_resolver : ViewModelResolver := fun _ _ _ => Plain 1.

(** The props of the [<Binder>] that [bindViewModel("UserVM")] renders under
    a provider of [resolver] and the default registry. *)
Definition userVM_props (resolver : ViewModelResolver) (model : option ViewModel)
    : BinderProps :=
  {| viewModel := model;
     viewModelIdentifier := IdString "UserVM";
     viewModelResolver := resolver;
     onBind vm := registry_addInstance DefaultViewModelRegistry (IdString "UserVM") vm;
     onUnbind vm := registry_removeInstance DefaultViewModelRegistry (IdString "UserVM") vm;
     rest := [] |}.

(** How many events of a kind a list has. *)
Definition count_events (kind : Event → bool) (events : list Event) : nat :=
  length (List.filter kind events).

(** What a mount of the hook shows: the resolver call, the registration and
    then [onActivate], called with no argument, when the model has it. *)
Definition hook_mount_events (vmIdentifier : ViewModelIdentifier) (bound : ViewModel)
    (w : World) : list Event :=
  [ResolverCall vmIdentifier None bound (buckets w);
   Added vmIdentifier bound (addInstance vmIdentifier bound (buckets w))]
  ++ (if implements w bound onActivate
      then [Dispatch bound onActivate [] (addInstance vmIdentifier bound (buckets w))]
      else []).

(** What an unmount of the hook shows: [onDeactivate] when the model has it,
    then the removal. *)
Definition hook_unmount_events (vmIdentifier : ViewModelIdentifier) (bound : ViewModel)
    (w : World) : list Event :=
  (if implements w bound onDeactivate
   then [Dispatch bound onDeactivate [] (buckets w)]
   else [])
  ++ [Removed vmIdentifier bound (removeInstance vmIdentifier bound (buckets w))].

(** ** BoundViewModel *)

(** What the [viewRef] field of a [BoundViewModel] holds: [null] at first,
    then whatever [onViewLoaded] was handed ([undefined] when it was handed
    nothing). *)
Inductive Slot : Type :=
  | Null
  | Undefined
  | Holds (value : Value).

(** The one field of the abstract class. *)
Record BoundViewModel : Type := {
  bvm_viewRef : Slot
}.

(** A new instance: [viewRef = null]. *)
Definition BoundViewModel_new : BoundViewModel := {| bvm_viewRef := Null |}.

(** The parameter a method body reads when it is called with [args]. *)
Definition argument (args : list Value) (i : nat) : Slot :=
  match args !! i with
  | Some value => Holds value
  | None => Undefined
  end.

(** The three methods of the class: [onActivate(props) {}],
    [onViewLoaded(viewRef) { this.viewRef = viewRef; }], [onDeactivate() {}]. *)
Definition BoundViewModel_call (method : LifecycleMethod) (args : list Value)
    (self : BoundViewModel) : BoundViewModel :=
  match method with
  | onActivate => self
  | onViewLoaded => {| bvm_viewRef := argument args 0 |}
  | onDeactivate => self
  end.

(** The object [target], a [BoundViewModel], after the calls a trace made on
    it, in their order. *)
Definition BoundViewModel_after (target : ViewModel) (events : list Event)
    (self : BoundViewModel) : BoundViewModel :=
  fold_left
    (fun self e =>
       match e with
       | Dispatch t method args _ =>
           if decide (t = target) then BoundViewModel_call method args self else self
       | _ => self
       end)
    events self.

(** ** Decorator-made props *)

(** A caller that passes data of the view only. *)
Definition viewProps (extra : list (string * string)) : CallerProps :=
  {| own_viewModel := None;
     own_viewModelIdentifier := None;
     own_viewModelResolver := None;
     own_onUnbind := None;
     own_onBind := None;
     others := extra |}.

(** The props of a Binder wired to the default registry under
    [vmIdentifier]: those of the [<Binder>] that [bindViewModel(vmIdentifier)]
    renders under a provider of [resolver] and that registry, for a caller
    that passes [model] and, besides, data of the view only. *)
Definition boundProps (vmIdentifier : ViewModelIdentifier) (resolver : ViewModelResolver)
    (model : option ViewModel) (extra : list (string * string)) : BinderProps :=
  {| viewModel := model;
     viewModelIdentifier := vmIdentifier;
     viewModelResolver := resolver;
     onBind vm := registry_addInstance DefaultViewModelRegistry vmIdentifier vm;
     onUnbind vm := registry_removeInstance DefaultViewModelRegistry vmIdentifier vm;
     rest := extra |}.

(** * Properties *)

Ltac run_M :=
  unfold Binder_constructor, receiveProps, componentDidUpdate, componentDidMount,
    componentWillUnmount, setState, resolveModel, notifyOfViewLifecycle,
    call_resolver, bind, ret, emit, get_buckets, put_buckets; cbn;
  unfold bind, ret, emit, get_buckets, put_buckets; cbn.

(** ** Sets *)

Module SetFacts.
Import ObservableSet.

Lemma next_serial_above heap source serial :
  Observable source serial ∈ heap → serial < next_serial heap.
Proof.
  induction heap as [|o heap IH]; intros Hin; [by apply not_elem_of_nil in Hin|].
  apply elem_of_cons in Hin as [<-|Hin].
  - unfold next_serial. cbn. lia.
  - specialize (IH Hin). unfold next_serial in *. cbn. destruct o; lia.
Qed.

(** What the enhancer makes of a plain structure is none of the objects
    there are. *)
Lemma deepEnhancer_new heap model :
  is_plain model = true →
  (deepEnhancer heap model ∉ heap) ∧ deepEnhancer heap model ≠ model
  ∧ is_plain (deepEnhancer heap model) = false.
Proof.
  destruct model as [r|r|s n]; try discriminate. intros _. cbn. split_and!; [|done|done].
  intros Hin. apply next_serial_above in Hin. lia.
Qed.

Lemma deepEnhancer_kept heap model :
  is_plain model = false → deepEnhancer heap model = model.
Proof. by destruct model. Qed.

Lemma deepEnhancer_not_in heap model instances :
  instances ⊆ heap → model ∉ instances → deepEnhancer heap model ∉ instances.
Proof.
  intros Hsub Hnin. destruct (is_plain model) eqn:Hp.
  - intros Hin. by apply (proj1 (deepEnhancer_new heap model Hp)), Hsub.
  - by rewrite deepEnhancer_kept.
Qed.

Lemma elem_of_add heap model x instances :
  x ∈ add heap model instances
  ↔ x ∈ instances ∨ ((model ∉ instances) ∧ x = deepEnhancer heap model).
Proof.
  unfold add. case_decide as Hin.
  - split; [by left | by intros [?|[? _]]].
  - rewrite elem_of_app, list_elem_of_singleton. intuition.
Qed.

Lemma add_present heap model instances :
  model ∈ instances → add heap model instances = instances.
Proof. intros Hin. unfold add. by rewrite decide_True. Qed.

Lemma add_fresh heap model instances :
  model ∉ instances → add heap model instances = instances ++ [deepEnhancer heap model].
Proof. intros Hin. unfold add. by rewrite decide_False. Qed.

(** An instance MobX stores as it is is listed once it is added. *)
Lemma elem_of_add_kept heap model instances :
  is_plain model = false → model ∈ add heap model instances.
Proof.
  intros Hkept. apply elem_of_add.
  destruct (decide (model ∈ instances)); [by left|right].
  by rewrite deepEnhancer_kept.
Qed.

Lemma add_not_nil heap model instances : add heap model instances ≠ [].
Proof.
  unfold add. case_decide as Hin.
  - intros ->. by apply not_elem_of_nil in Hin.
  - by destruct instances.
Qed.

Lemma elem_of_delete model x instances :
  x ∈ delete model instances ↔ x ∈ instances ∧ x ≠ model.
Proof. unfold delete. rewrite list_elem_of_filter. tauto. Qed.

Lemma delete_absent model instances :
  model ∉ instances → delete model instances = instances.
Proof.
  unfold delete. induction instances as [|y l IH]; intros Hnin; [done|].
  apply not_elem_of_cons in Hnin as [Hne Hl].
  rewrite filter_cons_True by congruence. by rewrite IH.
Qed.

Lemma NoDup_add heap model instances :
  instances ⊆ heap → NoDup instances → NoDup (add heap model instances).
Proof.
  intros Hsub Hnd. unfold add. case_decide as Hin; [done|].
  apply (proj2 (list.NoDup_app instances [deepEnhancer heap model])).
  split_and!; [done| |apply NoDup_singleton].
  intros x Hx Hx'. apply list_elem_of_singleton in Hx' as ->.
  by apply (deepEnhancer_not_in heap model instances).
Qed.

Lemma NoDup_delete model instances : NoDup instances → NoDup (delete model instances).
Proof. unfold delete. apply list.NoDup_filter. Qed.

End SetFacts.

(** ** The registry and the locator *)

Section registry_facts.
Implicit Types (b : gmap ViewModelIdentifier (list ViewModel)).
Implicit Types (k j : ViewModelIdentifier) (v x : ViewModel).

Lemma locateMany_lookup b k : locateMany b k = default [] (b !! k).
Proof. reflexivity. Qed.

Lemma elem_of_objects b x :
  x ∈ objects b ↔ ∃ k l, b !! k = Some l ∧ x ∈ l.
Proof.
  unfold objects. rewrite list_elem_of_join. split.
  - intros (l & Hx & Hl). apply list_elem_of_fmap in Hl as ([k l'] & -> & Hkl).
    apply elem_of_map_to_list in Hkl. by exists k, l'.
  - intros (k & l & Hk & Hx). exists l. split; [done|].
    apply list_elem_of_fmap. exists (k, l). split; [done|].
    by apply elem_of_map_to_list.
Qed.

Lemma locateMany_objects b k : locateMany b k ⊆ objects b.
Proof.
  intros x Hx. rewrite locateMany_lookup in Hx. apply elem_of_objects.
  destruct (b !! k) as [l|] eqn:Hk; [by exists k, l|].
  by apply not_elem_of_nil in Hx.
Qed.

Lemma locateMany_addInstance b k v :
  locateMany (addInstance k v b) k = ObservableSet.add (objects b) v (locateMany b k).
Proof.
  rewrite !locateMany_lookup. unfold addInstance. cbv zeta.
  destruct (b !! k) as [s|]; cbn; by rewrite lookup_insert_eq.
Qed.

Lemma lookup_addInstance_ne b k v j :
  k ≠ j → addInstance k v b !! j = b !! j.
Proof.
  intros Hne. unfold addInstance. cbv zeta.
  destruct (b !! k) as [s|]; cbn; by rewrite !lookup_insert_ne.
Qed.

Lemma locateMany_removeInstance b k v :
  locateMany (removeInstance k v b) k = ObservableSet.delete v (locateMany b k).
Proof.
  rewrite !locateMany_lookup. unfold removeInstance.
  destruct (b !! k) as [s|] eqn:Hk; cbn; [|by rewrite Hk].
  case_decide as Hsize.
  - rewrite lookup_delete_eq. cbn.
    unfold ObservableSet.size in Hsize. symmetry. by apply nil_length_inv.
  - by rewrite lookup_insert_eq.
Qed.

Lemma lookup_removeInstance_ne b k v j :
  k ≠ j → removeInstance k v b !! j = b !! j.
Proof.
  intros Hne. unfold removeInstance.
  destruct (b !! k) as [s|]; [|done]. cbn.
  case_decide; [rewrite lookup_delete_ne by done|]; by rewrite lookup_insert_ne.
Qed.

Lemma lookup_removeInstance_None b k v :
  ObservableSet.delete v (locateMany b k) = [] → removeInstance k v b !! k = None.
Proof.
  intros Hd. unfold removeInstance.
  destruct (b !! k) as [s|] eqn:Hk; [|done].
  rewrite locateMany_lookup, Hk in Hd. simpl in Hd.
  cbv zeta. rewrite Hd. rewrite decide_True by done. by rewrite lookup_delete_eq.
Qed.

Lemma registry_invariant_alt b :
  registry_invariant b ↔ ∀ k, b !! k ≠ Some [].
Proof.
  unfold registry_invariant. split.
  - intros Hinv k Hk. destruct (Hinv k) as [Hnil _].
    apply Hnil; [by rewrite Hk|]. by rewrite locateMany_lookup, Hk.
  - intros Hne k. rewrite locateMany_lookup. specialize (Hne k).
    destruct (b !! k) as [[|x s]|]; cbn; split; done.
Qed.

Lemma registry_invariant_empty : registry_invariant ∅.
Proof. apply registry_invariant_alt. intros k. by rewrite lookup_empty. Qed.

Lemma registry_invariant_add b k v :
  registry_invariant b → registry_invariant (addInstance k v b).
Proof.
  rewrite !registry_invariant_alt. intros Hinv j.
  destruct (decide (k = j)) as [<-|Hne].
  - intros Hk. pose proof (locateMany_addInstance b k v) as Hl.
    rewrite locateMany_lookup, Hk in Hl. cbn in Hl.
    symmetry in Hl. by apply SetFacts.add_not_nil in Hl.
  - by rewrite lookup_addInstance_ne.
Qed.

Lemma registry_invariant_remove b k v :
  registry_invariant b → registry_invariant (removeInstance k v b).
Proof.
  rewrite !registry_invariant_alt. intros Hinv j.
  destruct (decide (k = j)) as [<-|Hne]; [|by rewrite lookup_removeInstance_ne].
  unfold removeInstance. destruct (b !! k) as [s|] eqn:Hk; [|by rewrite Hk].
  cbn. case_decide as Hsize.
  - by rewrite lookup_delete_eq.
  - rewrite lookup_insert_eq. intros [= Hnil].
    apply Hsize. unfold ObservableSet.size. by rewrite Hnil.
Qed.

Lemma reachable_invariant b : reachable b → registry_invariant b.
Proof.
  induction 1 as [|k v b _ IH|k v b _ IH].
  - apply registry_invariant_empty.
  - by apply registry_invariant_add.
  - by apply registry_invariant_remove.
Qed.

(** The lists kept under an identifier never repeat an object. *)
Lemma reachable_NoDup b k : reachable b → NoDup (locateMany b k).
Proof.
  intros Hb. revert k. induction Hb as [|i v b _ IH|i v b _ IH]; intros k.
  - rewrite locateMany_lookup, lookup_empty. constructor.
  - destruct (decide (i = k)) as [<-|Hne].
    + rewrite locateMany_addInstance.
      apply SetFacts.NoDup_add; [apply locateMany_objects|apply IH].
    + rewrite locateMany_lookup, lookup_addInstance_ne by done. apply IH.
  - destruct (decide (i = k)) as [<-|Hne].
    + rewrite locateMany_removeInstance. by apply SetFacts.NoDup_delete.
    + rewrite locateMany_lookup, lookup_removeInstance_ne by done. apply IH.
Qed.

Lemma addInstance_present b k v :
  v ∈ locateMany b k → addInstance k v b = b.
Proof.
  rewrite locateMany_lookup. unfold addInstance. cbv zeta.
  destruct (b !! k) as [s|] eqn:Hk; cbn.
  - intros Hin. rewrite SetFacts.add_present by done. by apply insert_id.
  - intros Hin. by apply not_elem_of_nil in Hin.
Qed.

Lemma removeInstance_absent b k v :
  registry_invariant b → v ∉ locateMany b k → removeInstance k v b = b.
Proof.
  rewrite registry_invariant_alt, locateMany_lookup. intros Hinv.
  unfold removeInstance. destruct (b !! k) as [s|] eqn:Hk; cbn; [|done].
  intros Hnin. rewrite SetFacts.delete_absent by done.
  rewrite decide_False.
  - by apply insert_id.
  - unfold ObservableSet.size. intros Hlen. apply nil_length_inv in Hlen.
    subst s. by apply (Hinv k).
Qed.

(** In the states the registry can reach no plain structure is listed: what
    a Set stores of one is a copy. *)
Lemma reachable_no_plain b k x :
  reachable b → x ∈ locateMany b k → is_plain x = false.
Proof.
  intros Hb. revert k x. induction Hb as [|i v b _ IH|i v b _ IH]; intros k x.
  - rewrite locateMany_lookup, lookup_empty. intros Hin.
    by apply not_elem_of_nil in Hin.
  - destruct (decide (i = k)) as [<-|Hne].
    + rewrite locateMany_addInstance, SetFacts.elem_of_add.
      intros [Hin|[_ ->]]; [by apply (IH i)|].
      destruct (is_plain v) eqn:Hp.
      * by apply SetFacts.deepEnhancer_new.
      * by rewrite SetFacts.deepEnhancer_kept.
    + rewrite locateMany_lookup, lookup_addInstance_ne by done. apply IH.
  - destruct (decide (i = k)) as [<-|Hne].
    + rewrite locateMany_removeInstance, SetFacts.elem_of_delete.
      intros [Hin _]. by apply (IH i).
    + rewrite locateMany_lookup, lookup_removeInstance_ne by done. apply IH.
Qed.

End registry_facts.



(** C3.  Every state the registry can reach has an identifier as a key iff
    instances are listed under it; [addInstance] and [removeInstance] keep
    that so; and removing the only instance listed under an identifier leaves
    the map handed out by [instances] without that key. *)
Theorem registry_prunes_empty_sets :
  ∀ (b : gmap ViewModelIdentifier (list ViewModel)),
    reachable b →
    registry_invariant b
    ∧ ∀ (k : ViewModelIdentifier) (v : ViewModel),
        registry_invariant (addInstance k v b)
        ∧ registry_invariant (removeInstance k v b)
        ∧ (locateMany b k = [v] → instances (removeInstance k v b) !! k = None).
Proof.
  intros b Hb. pose proof (reachable_invariant b Hb) as Hinv.
  split; [done|]. intros k v. split_and!.
  - by apply registry_invariant_add.
  - by apply registry_invariant_remove.
  - intros Hone. unfold instances. apply lookup_removeInstance_None.
    rewrite Hone. unfold ObservableSet.delete.
    rewrite filter_cons_False by (intros Hne; by apply Hne). done.
Qed.

Lemma registry_prunes_empty_sets_witness :
  let b : gmap ViewModelIdentifier (list ViewModel) :=
    addInstance (IdString "UserVM") (Instance 1) ∅ in
  reachable b
  ∧ locateMany b (IdString "UserVM") = [Instance 1]
  ∧ registry_invariant b
  ∧ instances (removeInstance (IdString "UserVM") (Instance 1) b) !! IdString "UserVM"
    = None.
Proof.
  assert (Hb : reachable (addInstance (IdString "UserVM") (Instance 1) ∅))
    by (apply reachable_add, reachable_empty).
  assert (Hone : locateMany (addInstance (IdString "UserVM") (Instance 1) ∅)
                   (IdString "UserVM") = [Instance 1]) by (vm_compute; reflexivity).
  destruct (registry_prunes_empty_sets _ Hb) as [Hinv Hops].
  destruct (Hops (IdString "UserVM") (Instance 1)) as (_ & _ & Hprune).
  cbv zeta. split_and!; [exact Hb | exact Hone | exact Hinv | exact (Hprune Hone)].
Defined.

(** C7.  The registry operations are functions of the registry state with no
    failing case.  In every state the registry can reach: adding an instance
    already listed under the identifier changes nothing, removing an instance
    that is not listed under the identifier (the identifier may be no key at
    all) changes nothing, and [instances] hands out the state as it is. *)
Theorem registry_noops :
  ∀ (b : gmap ViewModelIdentifier (list ViewModel))
    (k : ViewModelIdentifier) (v : ViewModel),
    reachable b →
    (v ∈ locateMany b k → addInstance k v b = b)
    ∧ (v ∉ locateMany b k → removeInstance k v b = b)
    ∧ (b !! k = None → removeInstance k v b = b)
    ∧ instances b = b.
Proof.
  intros b k v Hb. split_and!.
  - apply addInstance_present.
  - apply removeInstance_absent. by apply reachable_invariant.
  - intros Hk. unfold removeInstance. by rewrite Hk.
  - reflexivity.
Qed.

Lemma registry_noops_witness :
  let b : gmap ViewModelIdentifier (list ViewModel) :=
    addInstance (IdString "UserVM") (Instance 1) ∅ in
  reachable b
  ∧ addInstance (IdString "UserVM") (Instance 1) b = b
  ∧ removeInstance (IdString "UserVM") (Instance 2) b = b
  ∧ removeInstance (IdString "OrderVM") (Instance 1) b = b.
Proof.
  assert (Hb : reachable (addInstance (IdString "UserVM") (Instance 1) ∅))
    by (apply reachable_add, reachable_empty).
  assert (Hl : locateMany (addInstance (IdString "UserVM") (Instance 1) ∅)
                 (IdString "UserVM") = [Instance 1]) by (vm_compute; reflexivity).
  cbv zeta. split_and!.
  - exact Hb.
  - destruct (registry_noops _ (IdString "UserVM") (Instance 1) Hb) as (Hadd & _).
    apply Hadd. rewrite Hl. apply list_elem_of_here.
  - destruct (registry_noops _ (IdString "UserVM") (Instance 2) Hb) as (_ & Hrem & _).
    apply Hrem. rewrite Hl. intros Hin.
    apply list_elem_of_singleton in Hin. discriminate Hin.
  - destruct (registry_noops _ (IdString "OrderVM") (Instance 1) Hb)
      as (_ & _ & Hkey & _).
    apply Hkey. vm_compute. reflexivity.
Defined.

(** ** Binder *)

Lemma events_since_app w w' events :
  trace w' = trace w ++ events → events_since w w' = events.
Proof. unfold events_since. intros ->. by rewrite drop_app_length. Qed.

Lemma filter_none {A} (P : A → Prop) `{∀ x, Decision (P x)} (l : list A) :
  (∀ x, x ∈ l → ¬ P x) → filter P l = [].
Proof.
  induction l as [|y l IH]; intros Hno; [done|].
  rewrite filter_cons_False by (apply Hno; left).
  apply IH. intros x Hx. apply Hno. by right.
Qed.

Lemma bindViewModel_provided vmIdentifier model extra resolver p :
  bindViewModel vmIdentifier model (viewProps extra)
    (MxvmProvider resolver DefaultViewModelRegistry) = Normal p →
  p = boundProps vmIdentifier resolver model extra.
Proof. unfold bindViewModel, MxvmProvider. cbn. by intros [= <-]. Qed.

Lemma boundProps_bound vmIdentifier resolver model extra :
  bindViewModel vmIdentifier model (viewProps extra)
    (MxvmProvider resolver DefaultViewModelRegistry)
  = Normal (boundProps vmIdentifier resolver model extra).
Proof. reflexivity. Qed.

Lemma userVM_props_bound resolver model :
  bindViewModel (IdString "UserVM") model (viewProps [])
    (MxvmProvider resolver DefaultViewModelRegistry)
  = Normal (userVM_props resolver model).
Proof. reflexivity. Qed.

(** What the constructor of a decorator-made Binder does. *)
Lemma Binder_constructor_run vmIdentifier resolver model extra ref w :
  let bound := match model with
               | Some vm => vm
               | None => resolver vmIdentifier (Some extra) w
               end in
  Binder_constructor (boundProps vmIdentifier resolver model extra) ref w
  = ({| props := boundProps vmIdentifier resolver model extra;
        state_model := bound; viewRef := ref |},
     {| buckets := addInstance vmIdentifier bound (buckets w);
        implements := implements w;
        trace := trace w
          ++ match model with
             | Some _ => []
             | None => [ResolverCall vmIdentifier (Some extra) bound (buckets w)]
             end
          ++ [Added vmIdentifier bound (addInstance vmIdentifier bound (buckets w))] |}).
Proof. run_M. destruct model; cbn; by rewrite <- ?app_assoc. Qed.

(** What an unmount of a decorator-made Binder does. *)
Lemma componentWillUnmount_run vmIdentifier resolver model extra this w :
  props this = boundProps vmIdentifier resolver model extra →
  componentWillUnmount this w
  = (tt,
     {| buckets := removeInstance vmIdentifier (state_model this) (buckets w);
        implements := implements w;
        trace := trace w
          ++ (if implements w (state_model this) onDeactivate
              then [Dispatch (state_model this) onDeactivate [] (buckets w)]
              else [])
          ++ [Removed vmIdentifier (state_model this)
                (removeInstance vmIdentifier (state_model this) (buckets w))] |}).
Proof.
  intros Hp. run_M. rewrite Hp.
  destruct (implements w (state_model this) onDeactivate); run_M;
    by rewrite <- ?app_assoc.
Qed.

(** What a change of the [model] prop of a decorator-made Binder does. *)
Lemma receiveProps_run vmIdentifier resolver' model' extra' this w :
  viewModel (props this) ≠ model' →
  let old := state_model this in
  let r1 := removeInstance vmIdentifier old (buckets w) in
  let gone :=
    (if implements w old onDeactivate
     then [Dispatch old onDeactivate [] (buckets w)] else [])
    ++ [Removed vmIdentifier old r1] in
  let w1 := {| buckets := r1; implements := implements w;
               trace := trace w ++ gone |} in
  let new := match model' with
             | Some vm => vm
             | None => resolver' vmIdentifier (Some extra') w1
             end in
  receiveProps this (boundProps vmIdentifier resolver' model' extra') w
  = ({| props := boundProps vmIdentifier resolver' model' extra';
        state_model := new; viewRef := viewRef this |},
     {| buckets := addInstance vmIdentifier new r1;
        implements := implements w;
        trace := trace w
          ++ gone
          ++ match model' with
             | Some _ => []
             | None => [ResolverCall vmIdentifier (Some extra') new r1]
             end
          ++ [Rendered new r1; Added vmIdentifier new (addInstance vmIdentifier new r1)] |}).
Proof.
  intros Hne. run_M. rewrite decide_True by (intros Heq; by apply Hne, eq_sym).
  cbn. destruct (implements w (state_model this) onDeactivate); cbn;
    destruct model'; cbn; by rewrite <- ?app_assoc.
Qed.

Lemma componentDidMount_buckets this w :
  buckets (snd (componentDidMount this w)) = buckets w.
Proof.
  run_M. destruct (implements w (state_model this) onActivate); cbn;
    by destruct (implements w (state_model this) onViewLoaded).
Qed.

Lemma bound_visible_none owned k (b : gmap ViewModelIdentifier (list ViewModel)) :
  (∀ x, x ∈ owned → x ∉ locateMany b k) → bound_visible owned k b = 0.
Proof.
  intros Hnone. unfold bound_visible. rewrite filter_none; [done|].
  intros x Hx Hown. by apply (Hnone x).
Qed.

Lemma length_filter_one (owned l : list ViewModel) x :
  NoDup l → x ∈ l → x ∈ owned → (∀ y, y ∈ owned → y ∈ l → y = x) →
  length (filter (fun v => v ∈ owned) l) = 1.
Proof.
  induction l as [|y l IH]; intros Hnd Hx Hown Honly.
  - by apply not_elem_of_nil in Hx.
  - apply list.NoDup_cons in Hnd as [Hy Hnd].
    apply elem_of_cons in Hx as [<-|Hx].
    + rewrite filter_cons_True by done. rewrite filter_none; [done|].
      intros z Hz Hzown. apply Hy.
      rewrite <- (Honly z Hzown); [done|]. by right.
    + rewrite filter_cons_False.
      * apply IH; [done|done|done|]. intros z Hzown Hz. apply Honly; [done|by right].
      * intros Hyown. apply Hy. rewrite (Honly y Hyown); [done|]. by left.
Qed.






(** C6, as the code has it.  [componentWillUnmount] of a decorator-made
    Binder calls [onDeactivate] on the bound model (when it has that method)
    and only then removes it from the registry.  The call sees the registry
    exactly as it was before the unmount, so the instance is listed during
    the call iff it was listed then; it is, when the Binder has been
    constructed and mounted with nothing else touching the registry and the
    instance is one MobX stores as it is.  Once the unmount is over the
    instance is not listed, and what else the registry lists is as before. *)
Theorem componentWillUnmount_deactivates_then_unregisters :
  ∀ (vmIdentifier : ViewModelIdentifier) (model : option ViewModel)
    (extra : list (string * string)) (resolver : ViewModelResolver)
    (this : Binder) (w : World),
    bindViewModel vmIdentifier model (viewProps extra)
      (MxvmProvider resolver DefaultViewModelRegistry) = Normal (props this) →
    let bound := state_model this in
    let w' := snd (componentWillUnmount this w) in
    events_since w w'
      = (if implements w bound onDeactivate
         then [Dispatch bound onDeactivate [] (buckets w)]
         else [])
        ++ [Removed vmIdentifier bound (removeInstance vmIdentifier bound (buckets w))]
    ∧ (∀ e, e ∈ events_since w w' → is_dispatch onDeactivate e = true →
            snapshot e = buckets w
            ∧ (bound ∈ locateMany (snapshot e) vmIdentifier
               ↔ bound ∈ locateMany (buckets w) vmIdentifier))
    ∧ (∀ ref w0,
         is_plain bound = false →
         this = fst (Binder_constructor (props this) ref w0) →
         w = snd (componentDidMount this (snd (Binder_constructor (props this) ref w0))) →
         bound ∈ locateMany (buckets w) vmIdentifier)
    ∧ buckets w' = removeInstance vmIdentifier bound (buckets w)
    ∧ (bound ∉ locateMany (buckets w') vmIdentifier)
    ∧ (∀ x, x ≠ bound →
            x ∈ locateMany (buckets w') vmIdentifier
            ↔ x ∈ locateMany (buckets w) vmIdentifier).
Proof.
  intros vmIdentifier model extra resolver this w Hp.
  apply bindViewModel_provided in Hp.
  cbv zeta. rewrite (componentWillUnmount_run _ _ _ _ this w Hp).
  cbn [snd buckets].
  assert (Hev : events_since w
      {| buckets := removeInstance vmIdentifier (state_model this) (buckets w);
         implements := implements w;
         trace := trace w
           ++ (if implements w (state_model this) onDeactivate
               then [Dispatch (state_model this) onDeactivate [] (buckets w)]
               else [])
           ++ [Removed vmIdentifier (state_model this)
                 (removeInstance vmIdentifier (state_model this) (buckets w))] |}
    = (if implements w (state_model this) onDeactivate
       then [Dispatch (state_model this) onDeactivate [] (buckets w)]
       else [])
      ++ [Removed vmIdentifier (state_model this)
            (removeInstance vmIdentifier (state_model this) (buckets w))])
    by (by apply events_since_app).
  rewrite Hev. split_and!.
  - done.
  - intros e He Hd.
    assert (Hsnap : snapshot e = buckets w).
    { destruct (implements w (state_model this) onDeactivate); cbn in He.
      - apply elem_of_cons in He as [->|He]; [done|].
        apply list_elem_of_singleton in He as ->. discriminate Hd.
      - apply list_elem_of_singleton in He as ->. discriminate Hd. }
    by rewrite Hsnap.
  - intros ref w0 Hkept Hthis ->. rewrite componentDidMount_buckets.
    rewrite Hp in Hthis |- *. rewrite Binder_constructor_run in Hthis |- *.
    cbn [fst snd buckets] in Hthis |- *.
    assert (Hstate : state_model this
                     = match model with
                       | Some vm => vm
                       | None => resolver vmIdentifier (Some extra) w0
                       end) by (by rewrite Hthis).
    rewrite <- Hstate, locateMany_addInstance.
    by apply SetFacts.elem_of_add_kept.
  - done.
  - rewrite locateMany_removeInstance. intros Hin.
    apply SetFacts.elem_of_delete in Hin as [_ Hne]. done.
  - intros x Hx. rewrite locateMany_removeInstance, SetFacts.elem_of_delete.
    intuition.
Qed.

Lemma componentWillUnmount_deactivates_then_unregisters_witness :
  let p := userVM_props transient_resolver None in
  let this := fst (Binder_constructor p 7%positive world0) in
  let w := snd (componentDidMount this (snd (Binder_constructor p 7%positive world0))) in
  let w' := snd (componentWillUnmount this w) in
  bindViewModel (IdString "UserVM") None (viewProps [])
    (MxvmProvider transient_resolver DefaultViewModelRegistry) = Normal (props this)
  ∧ events_since w w'
    = [Dispatch (Instance 1) onDeactivate [] {[ IdString "UserVM" := [Instance 1] ]};
       Removed (IdString "UserVM") (Instance 1) ∅]
  ∧ state_model this ∈ locateMany (buckets w) (IdString "UserVM")
  ∧ (∀ e, e ∈ events_since w w' → is_dispatch onDeactivate e = true →
          state_model this ∈ locateMany (snapshot e) (IdString "UserVM"))
  ∧ locateMany (buckets w') (IdString "UserVM") = [].
Proof.
  pose proof (componentWillUnmount_deactivates_then_unregisters
    (IdString "UserVM") None [] transient_resolver
    (fst (Binder_constructor (userVM_props transient_resolver None) 7%positive world0))
    (snd (componentDidMount
       (fst (Binder_constructor (userVM_props transient_resolver None) 7%positive world0))
       (snd (Binder_constructor (userVM_props transient_resolver None) 7%positive world0))))
    (userVM_props_bound transient_resolver None)) as H.
  cbv zeta in H. destruct H as (_ & Hduring & Hlisted & _).
  assert (Hin : state_model
      (fst (Binder_constructor (userVM_props transient_resolver None) 7%positive world0))
    ∈ locateMany (buckets (snd (componentDidMount
       (fst (Binder_constructor (userVM_props transient_resolver None) 7%positive world0))
       (snd (Binder_constructor (userVM_props transient_resolver None) 7%positive
               world0))))) (IdString "UserVM"))
    by (apply (Hlisted 7%positive world0); reflexivity).
  cbv zeta. split_and!.
  - apply userVM_props_bound.
  - vm_compute. reflexivity.
  - exact Hin.
  - intros e He Hd. by apply (Hduring e He Hd).
  - vm_compute. reflexivity.
Defined.

(** C6 as stated fails where two Binders have one instance bound: two
    Binders for ["UserVM"] over a singleton resolver are constructed and
    mounted, the first unmounts and then the second.  [onDeactivate] of the
    second unmount is called on an instance the registry does not list. *)
Lemma shared_instance_is_not_listed_during_onDeactivate :
  let p := userVM_props singleton_resolver None in
  let first := fst (Binder_constructor p 7%positive world0) in
  let w1 := snd (componentDidMount first (snd (Binder_constructor p 7%positive world0))) in
  let second := fst (Binder_constructor p 8%positive w1) in
  let w2 := snd (componentDidMount second (snd (Binder_constructor p 8%positive w1))) in
  let w3 := snd (componentWillUnmount first w2) in
  let w4 := snd (componentWillUnmount second w3) in
  state_model second = Instance 1
  ∧ locateMany (buckets w2) (IdString "UserVM") = [Instance 1]
  ∧ events_since w3 w4
    = [Dispatch (Instance 1) onDeactivate [] ∅;
       Removed (IdString "UserVM") (Instance 1) ∅]
  ∧ ∃ e, e ∈ events_since w3 w4
         ∧ is_dispatch onDeactivate e = true
         ∧ locateMany (snapshot e) (IdString "UserVM") = []
         ∧ state_model second ∉ locateMany (snapshot e) (IdString "UserVM").
Proof.
  cbv zeta.
  match goal with
  | |- _ ∧ _ ∧ ?events = ?l ∧ _ =>
      assert (Hev : events = l) by (vm_compute; reflexivity)
  end.
  split_and!.
  - vm_compute. reflexivity.
  - vm_compute. reflexivity.
  - exact Hev.
  - exists (Dispatch (Instance 1) onDeactivate [] ∅). split_and!.
    + rewrite Hev. apply list_elem_of_here.
    + reflexivity.
    + reflexivity.
    + cbn. apply not_elem_of_nil.
Qed.

(** C1, as the code has it.  When a decorator-made Binder gets a [model]
    prop that differs (by reference, or given against not given) from the
    previous one, [componentDidUpdate] calls [onDeactivate] on the old
    instance with the registry as it was before the update, removes the old
    instance, resolves the new one, has the view rendered with the new one
    and registers the new one last; the resolver and the render see the
    registry without the old instance.  After the removal the registry lists
    what it listed before, the old instance apart.  So when nobody else had
    the new instance registered, the registry lists neither of the two from
    the removal to the registration: with the old instance listed before and
    a new one that MobX stores as it is, the registry shows one of the two
    to [onDeactivate], none at the removal, to the resolver and to the
    render, and one again after the registration. *)
Theorem componentDidUpdate_rebinds_in_order :
  ∀ (vmIdentifier : ViewModelIdentifier) (model' : option ViewModel)
    (extra' : list (string * string)) (resolver' : ViewModelResolver)
    (this : Binder) (p' : BinderProps) (w : World),
    bindViewModel vmIdentifier model' (viewProps extra')
      (MxvmProvider resolver' DefaultViewModelRegistry) = Normal p' →
    viewModel (props this) ≠ model' →
    let old := state_model this in
    let r0 := buckets w in
    let r1 := removeInstance vmIdentifier old r0 in
    let w1 := {| buckets := r1; implements := implements w;
                 trace := trace w
                   ++ (if implements w old onDeactivate
                       then [Dispatch old onDeactivate [] r0] else [])
                   ++ [Removed vmIdentifier old r1] |} in
    let new := match model' with
               | Some vm => vm
               | None => resolver' vmIdentifier (Some extra') w1
               end in
    let r2 := addInstance vmIdentifier new r1 in
    let this' := fst (receiveProps this p' w) in
    let w' := snd (receiveProps this p' w) in
    state_model this' = new
    ∧ props this' = p'
    ∧ events_since w w'
      = (if implements w old onDeactivate
         then [Dispatch old onDeactivate [] r0] else [])
        ++ [Removed vmIdentifier old r1]
        ++ match model' with
           | Some _ => []
           | None => [ResolverCall vmIdentifier (Some extra') new r1]
           end
        ++ [Rendered new r1; Added vmIdentifier new r2]
    ∧ buckets w' = r2
    ∧ (old ∉ locateMany r1 vmIdentifier)
    ∧ (∀ x, x ∈ locateMany r1 vmIdentifier
            ↔ x ∈ locateMany r0 vmIdentifier ∧ x ≠ old)
    ∧ (new ∉ locateMany r0 vmIdentifier →
         bound_visible [old; new] vmIdentifier r1 = 0)
    ∧ (is_plain new = false →
         new ∈ locateMany r2 vmIdentifier
         ∧ (old ≠ new → old ∉ locateMany r2 vmIdentifier))
    ∧ (reachable r0 →
       old ∈ locateMany r0 vmIdentifier →
       new ∉ locateMany r0 vmIdentifier →
       is_plain new = false →
         map (fun e => bound_visible [old; new] vmIdentifier (snapshot e))
             (events_since w w')
         = (if implements w old onDeactivate then [1] else [])
           ++ [0]
           ++ match model' with Some _ => [] | None => [0] end
           ++ [0; 1]).
Proof.
  intros vmIdentifier model' extra' resolver' this p' w Hp Hne.
  apply bindViewModel_provided in Hp as ->.
  cbv zeta. rewrite (receiveProps_run vmIdentifier resolver' model' extra' this w Hne).
  cbv zeta. cbn [fst snd state_model props buckets].
  set (old := state_model this).
  set (r1 := removeInstance vmIdentifier old (buckets w)).
  set (gone := (if implements w old onDeactivate
                then [Dispatch old onDeactivate [] (buckets w)] else [])
               ++ [Removed vmIdentifier old r1]).
  set (w1 := {| buckets := r1; implements := implements w; trace := trace w ++ gone |}).
  set (new := match model' with
              | Some vm => vm
              | None => resolver' vmIdentifier (Some extra') w1
              end).
  set (r2 := addInstance vmIdentifier new r1).
  assert (Hev : events_since w
      {| buckets := r2; implements := implements w;
         trace := trace w ++ gone
           ++ match model' with
              | Some _ => []
              | None => [ResolverCall vmIdentifier (Some extra') new r1]
              end
           ++ [Rendered new r1; Added vmIdentifier new r2] |}
    = (if implements w old onDeactivate
       then [Dispatch old onDeactivate [] (buckets w)] else [])
      ++ [Removed vmIdentifier old r1]
      ++ match model' with
         | Some _ => []
         | None => [ResolverCall vmIdentifier (Some extra') new r1]
         end
      ++ [Rendered new r1; Added vmIdentifier new r2]).
  { apply events_since_app. cbn [trace]. unfold gone. by rewrite <- !app_assoc. }
  assert (Hr1 : ∀ x, x ∈ locateMany r1 vmIdentifier
                     ↔ x ∈ locateMany (buckets w) vmIdentifier ∧ x ≠ old).
  { intros x. unfold r1. by rewrite locateMany_removeInstance, SetFacts.elem_of_delete. }
  assert (Hzero : new ∉ locateMany (buckets w) vmIdentifier →
                  bound_visible [old; new] vmIdentifier r1 = 0).
  { intros Hnew. apply bound_visible_none. intros x Hx Hin.
    apply Hr1 in Hin as [Hin Hxold].
    apply elem_of_cons in Hx as [->|Hx]; [done|].
    apply list_elem_of_singleton in Hx as ->. done. }
  rewrite Hev. split_and!.
  - done.
  - done.
  - done.
  - done.
  - intros Hin. by apply Hr1 in Hin as [_ Hin].
  - exact Hr1.
  - exact Hzero.
  - intros Hkept. unfold r2. rewrite locateMany_addInstance. split.
    + by apply SetFacts.elem_of_add_kept.
    + intros Hdiff Hin. apply SetFacts.elem_of_add in Hin as [Hin|[_ Hin]].
      * by apply Hr1 in Hin as [_ Hin].
      * rewrite SetFacts.deepEnhancer_kept in Hin by done. done.
  - intros Hb Hold Hnew Hkept.
    assert (H0 : bound_visible [old; new] vmIdentifier (buckets w) = 1).
    { unfold bound_visible. apply (length_filter_one _ _ old).
      - by apply reachable_NoDup.
      - done.
      - apply list_elem_of_here.
      - intros y Hy Hin. apply elem_of_cons in Hy as [->|Hy]; [done|].
        apply list_elem_of_singleton in Hy as ->. done. }
    assert (H2 : bound_visible [old; new] vmIdentifier r2 = 1).
    { unfold bound_visible, r2. rewrite locateMany_addInstance.
      rewrite SetFacts.add_fresh by (intros Hin; by apply Hr1 in Hin as [Hin _]).
      rewrite SetFacts.deepEnhancer_kept by done.
      rewrite list.filter_app, length_app.
      fold (bound_visible [old; new] vmIdentifier r1). rewrite (Hzero Hnew).
      rewrite filter_cons_True by (right; apply list_elem_of_here). done. }
    rewrite !map_app.
    destruct (implements w old onDeactivate), model'; cbn [map snapshot app];
      by rewrite ?H0, ?H2, ?(Hzero Hnew).
Qed.

Lemma componentDidUpdate_rebinds_in_order_witness :
  let p := userVM_props singleton_resolver None in
  let p' := userVM_props singleton_resolver (Some (Instance 2)) in
  let this := fst (Binder_constructor p 7%positive world0) in
  let w := snd (componentDidMount this (snd (Binder_constructor p 7%positive world0))) in
  let w' := snd (receiveProps this p' w) in
  viewModel (props this) ≠ Some (Instance 2)
  ∧ state_model (fst (receiveProps this p' w)) = Instance 2
  ∧ locateMany (buckets w') (IdString "UserVM") = [Instance 2]
  ∧ locateFirst (buckets w') (IdString "UserVM") = Some (Instance 2).
Proof.
  assert (Hne : viewModel (props (fst (Binder_constructor
                  (userVM_props singleton_resolver None) 7%positive world0)))
                ≠ Some (Instance 2)) by (vm_compute; discriminate).
  pose proof (componentDidUpdate_rebinds_in_order (IdString "UserVM")
    (Some (Instance 2)) [] singleton_resolver _ _
    (snd (componentDidMount
       (fst (Binder_constructor (userVM_props singleton_resolver None) 7%positive world0))
       (snd (Binder_constructor (userVM_props singleton_resolver None) 7%positive world0))))
    (userVM_props_bound singleton_resolver (Some (Instance 2))) Hne) as H.
  cbv zeta in H. destruct H as (Hstate & _ & _ & Hbuckets & _).
  cbv zeta. split_and!.
  - exact Hne.
  - exact Hstate.
  - rewrite Hbuckets. vm_compute. reflexivity.
  - rewrite Hbuckets. vm_compute. reflexivity.
Defined.

(** C1 as stated fails: the registry starts empty, a Binder for ["UserVM"]
    is made over a resolver that returns instance 1 and mounted, then its
    [model] prop becomes instance 2.  Of the four registry states shown
    during the rebind the second and the third, at the removal of instance 1
    and at the render with instance 2, list none of the Binder's two
    instances. *)
Lemma rebind_shows_registry_without_instance :
  let p := userVM_props singleton_resolver None in
  let p' := userVM_props singleton_resolver (Some (Instance 2)) in
  let this := fst (Binder_constructor p 7%positive world0) in
  let w := snd (componentDidMount this (snd (Binder_constructor p 7%positive world0))) in
  let w' := snd (receiveProps this p' w) in
  events_since w w'
    = [Dispatch (Instance 1) onDeactivate [] {[ IdString "UserVM" := [Instance 1] ]};
       Removed (IdString "UserVM") (Instance 1) ∅;
       Rendered (Instance 2) ∅;
       Added (IdString "UserVM") (Instance 2) {[ IdString "UserVM" := [Instance 2] ]}]
  ∧ map (fun e => bound_visible [Instance 1; Instance 2] (IdString "UserVM") (snapshot e))
        (events_since w w') = [1; 0; 0; 1]
  ∧ ¬ Forall (fun e => bound_visible [Instance 1; Instance 2] (IdString "UserVM")
                         (snapshot e) = 1)
             (events_since w w').
Proof.
  cbv zeta.
  match goal with
  | |- _ ∧ ?counts = ?l ∧ _ => assert (Hmap : counts = l) by (vm_compute; reflexivity)
  end.
  split_and!.
  - vm_compute. reflexivity.
  - exact Hmap.
  - intros Hall.
    assert (Hones : Forall (fun n => n = 1) [1; 0; 0; 1]).
    { rewrite <- Hmap. apply Forall_fmap. exact Hall. }
    inversion Hones as [|? ? _ Htl]. inversion Htl as [|? ? Hzero _].
    discriminate Hzero.
Qed.

(** C8.  The function the decorator puts under the context consumer, and the
    hook, throw when the context has no resolver or no registry, and then
    nothing else has happened: no [<Binder>] element is returned, the hook
    has not called the resolver or [useBinder], the world is as it was.  With
    both in the context neither throws. *)
Theorem missing_context_throws :
  ∀ (vmIdentifier : ViewModelIdentifier) (model : option ViewModel)
    (extra : CallerProps) (someResolver : ViewModelResolver)
    (someRegistry : ViewModelRegistry) (anyRegistry : option ViewModelRegistry)
    (cell : option ViewModel) (w : World),
    bindViewModel vmIdentifier model extra
        {| resolver := None; registry := anyRegistry |}
      = Throw "Resolver has not been provided!"
    ∧ bindViewModel vmIdentifier model extra
        {| resolver := Some someResolver; registry := None |}
      = Throw "Registry has not been provided!"
    ∧ (∃ p, bindViewModel vmIdentifier model extra
              {| resolver := Some someResolver; registry := Some someRegistry |}
            = Normal p)
    ∧ Hooks.useViewModel vmIdentifier
        {| resolver := None; registry := anyRegistry |} cell w
      = (Throw "Resolver has not been provided!", w)
    ∧ Hooks.useViewModel vmIdentifier
        {| resolver := Some someResolver; registry := None |} cell w
      = (Throw "Registry has not been provided!", w)
    ∧ (∃ r, fst (Hooks.useViewModel vmIdentifier
                   {| resolver := Some someResolver; registry := Some someRegistry |}
                   cell w)
            = Normal r)
    ∧ (∀ context,
         (resolver context = None ∨ registry context = None)
         ↔ ∃ message, bindViewModel vmIdentifier model extra context = Throw message)
    ∧ (∀ context,
         (resolver context = None ∨ registry context = None)
         ↔ ∃ message, Hooks.useViewModel vmIdentifier context cell w
                      = (Throw message, w)).
Proof.
  intros vmIdentifier model extra someResolver someRegistry anyRegistry cell w.
  split_and!; try reflexivity.
  - eexists. reflexivity.
  - destruct cell; eexists; reflexivity.
  - intros [[r|] [g|]]; cbn; split;
      try (intros _; eexists; reflexivity);
      try (intros [Hn|Hn]; discriminate Hn);
      try (intros _; by left); try (intros _; by right).
    intros [message Hthrow]. discriminate Hthrow.
  - intros [[r|] [g|]]; cbn; split;
      try (intros _; eexists; reflexivity);
      try (intros [Hn|Hn]; discriminate Hn);
      try (intros _; by left); try (intros _; by right).
    intros [message Hthrow]. destruct cell; discriminate Hthrow.
Qed.

(** ** The hook *)

Section hook_facts.
Import Hooks.

Lemma count_events_app kind l1 l2 :
  count_events kind (l1 ++ l2) = count_events kind l1 + count_events kind l2.
Proof. unfold count_events. by rewrite List.filter_app, length_app. Qed.

Lemma count_events_resolver_calls kind calls :
  Forall (fun e => is_resolver_call e = true) calls →
  (∀ e, is_resolver_call e = true → kind e = false) →
  count_events kind calls = 0.
Proof.
  intros Hcalls Hkind. unfold count_events.
  induction Hcalls as [|e l He _ IH]; [done|].
  cbn. by rewrite (Hkind e He).
Qed.

Lemma rerender_keeps_model f p w bound :
  fiber_cell f = Some bound →
  fiber_cell (fst (rerender f p w)) = Some bound
  ∧ fiber_model (fst (rerender f p w)) = bound
  ∧ fiber_cleanup (fst (rerender f p w)) = fiber_cleanup f
  ∧ buckets (snd (rerender f p w)) = buckets w
  ∧ implements (snd (rerender f p w)) = implements w
  ∧ trace (snd (rerender f p w)) = trace w
      ++ [ResolverCall (viewModelIdentifier p) None
            (viewModelResolver p (viewModelIdentifier p) None w) (buckets w)].
Proof.
  intros Hcell.
  unfold rerender, useBinder, useState, call_resolver, bind, ret, emit.
  rewrite Hcell. cbn. done.
Qed.

Lemma rerenders_keep_model ps : ∀ f w bound,
  fiber_cell f = Some bound →
  fiber_model f = bound →
  fiber_cell (fst (rerenders f ps w)) = Some bound
  ∧ fiber_model (fst (rerenders f ps w)) = bound
  ∧ fiber_cleanup (fst (rerenders f ps w)) = fiber_cleanup f
  ∧ buckets (snd (rerenders f ps w)) = buckets w
  ∧ implements (snd (rerenders f ps w)) = implements w
  ∧ ∃ calls, trace (snd (rerenders f ps w)) = trace w ++ calls
             ∧ Forall (fun e => is_resolver_call e = true) calls
             ∧ length calls = length ps.
Proof.
  induction ps as [|p ps IH]; intros f w bound Hcell Hmodel.
  - cbn. split_and!; try done. exists []. by rewrite app_nil_r.
  - pose proof (rerender_keeps_model f p w bound Hcell) as Hstep.
    cbn [rerenders]. unfold bind.
    destruct (rerender f p w) as [f1 w1]. cbv beta iota. cbn [fst snd] in Hstep.
    destruct Hstep as (Hcell1 & Hmodel1 & Hclean1 & Hb1 & Hi1 & Ht1).
    destruct (IH f1 w1 bound Hcell1 Hmodel1)
      as (Hcell2 & Hmodel2 & Hclean2 & Hb2 & Hi2 & calls & Ht2 & Hcalls & Hlen).
    split_and!; try congruence.
    exists (ResolverCall (viewModelIdentifier p) None
              (viewModelResolver p (viewModelIdentifier p) None w) (buckets w)
            :: calls).
    split_and!.
    + rewrite Ht2, Ht1, <- app_assoc. reflexivity.
    + by constructor.
    + cbn. by rewrite Hlen.
Qed.

End hook_facts.

Section hook_cycle.
Import Hooks.
Variables (vmIdentifier : ViewModelIdentifier) (resolver : ViewModelResolver).

Let p := viewModelBinderProps vmIdentifier resolver DefaultViewModelRegistry.

Lemma mount_registers_then_activates w :
  let bound := resolver vmIdentifier None w in
  fiber_cell (fst (mount p w)) = Some bound
  ∧ fiber_model (fst (mount p w)) = bound
  ∧ buckets (snd (mount p w)) = addInstance vmIdentifier bound (buckets w)
  ∧ implements (snd (mount p w)) = implements w
  ∧ trace (snd (mount p w)) = trace w ++ hook_mount_events vmIdentifier bound w
  ∧ ∀ w2, implements w2 = implements w →
      trace (snd (fiber_cleanup (fst (mount p w)) w2))
        = trace w2 ++ hook_unmount_events vmIdentifier bound w2.
Proof.
  unfold p, mount, useBinder, useState, viewModelBinderProps, hook_mount_events,
    hook_unmount_events, call_resolver, bind, ret, emit, get_buckets, put_buckets.
  cbn.
  destruct (implements w (resolver vmIdentifier None w) onActivate) eqn:Hact; cbn;
    (split_and!; [done|done|done|done|by rewrite <- ?app_assoc, ?app_nil_r|]);
    intros w2 Himpl;
    destruct (implements w2 (resolver vmIdentifier None w) onDeactivate); cbn;
    by rewrite <- ?app_assoc.
Qed.

(** A whole life of the hook: mount, any number of later runs with any
    props, unmount. *)
Lemma hook_cycle_trace (ps : list UseBinderProps) (w : World) :
  let bound := resolver vmIdentifier None w in
  let f1 := fst (mount p w) in
  let w1 := snd (mount p w) in
  let f2 := fst (rerenders f1 ps w1) in
  let w2 := snd (rerenders f1 ps w1) in
  let w3 := snd (unmount f2 w2) in
  fiber_model f1 = bound
  ∧ fiber_model f2 = bound
  ∧ buckets w2 = buckets w1
  ∧ implements w2 = implements w
  ∧ trace w1 = trace w ++ hook_mount_events vmIdentifier bound w
  ∧ trace w3 = trace w2 ++ hook_unmount_events vmIdentifier bound w2
  ∧ ∃ calls, trace w2 = trace w1 ++ calls
             ∧ Forall (fun e => is_resolver_call e = true) calls
             ∧ length calls = length ps.
Proof.
  cbv zeta.
  destruct (mount_registers_then_activates w)
    as (Hcell & Hmodel & Hb1 & Hi1 & Ht1 & Hclean).
  destruct (rerenders_keep_model ps (fst (mount p w)) (snd (mount p w)) _ Hcell Hmodel)
    as (_ & Hmodel2 & Hclean2 & Hb2 & Hi2 & calls & Ht2 & Hcalls & Hlen).
  split_and!; try done.
  - congruence.
  - unfold unmount. rewrite Hclean2. apply Hclean. congruence.
  - by exists calls.
Qed.

End hook_cycle.

Lemma hook_cycle_events (vmIdentifier : ViewModelIdentifier)
    (resolver : ViewModelResolver) (ps : list Hooks.UseBinderProps) (w : World) :
  let p := Hooks.viewModelBinderProps vmIdentifier resolver DefaultViewModelRegistry in
  let bound := resolver vmIdentifier None w in
  let f1 := fst (Hooks.mount p w) in
  let w1 := snd (Hooks.mount p w) in
  let f2 := fst (Hooks.rerenders f1 ps w1) in
  let w2 := snd (Hooks.rerenders f1 ps w1) in
  let w3 := snd (Hooks.unmount f2 w2) in
  events_since w w1 = hook_mount_events vmIdentifier bound w
  ∧ events_since w2 w3 = hook_unmount_events vmIdentifier bound w2
  ∧ events_since w w3
    = hook_mount_events vmIdentifier bound w
      ++ events_since w1 w2
      ++ hook_unmount_events vmIdentifier bound w2
  ∧ Forall (fun e => is_resolver_call e = true) (events_since w1 w2)
  ∧ length (events_since w1 w2) = length ps.
Proof.
  cbv zeta.
  destruct (hook_cycle_trace vmIdentifier resolver ps w)
    as (_ & _ & _ & _ & Ht1 & Ht3 & calls & Ht2 & Hcalls & Hlen).
  cbv zeta in *.
  rewrite (events_since_app _ _ _ Ht1), (events_since_app _ _ _ Ht3),
    (events_since_app _ _ _ Ht2).
  split_and!; try done.
  apply events_since_app. rewrite Ht3, Ht2, Ht1. by rewrite <- !app_assoc.
Qed.

(** C9.  Through a whole life of the hook (a mount, any number of later
    runs whatever their props, an unmount) the model handed back is the one
    resolved by the first run.  The mount registers it and then calls
    [onActivate]; the later runs only call the resolver; the unmount calls
    [onDeactivate] and then removes the instance.  So there is one
    registration and one removal, and one call of [onActivate] and of
    [onDeactivate] when the model has the method. *)
Theorem hook_binds_once_per_mount :
  ∀ (vmIdentifier : ViewModelIdentifier) (resolver : ViewModelResolver)
    (ps : list Hooks.UseBinderProps) (w : World),
    let p := Hooks.viewModelBinderProps vmIdentifier resolver DefaultViewModelRegistry in
    let bound := resolver vmIdentifier None w in
    let f1 := fst (Hooks.mount p w) in
    let w1 := snd (Hooks.mount p w) in
    let f2 := fst (Hooks.rerenders f1 ps w1) in
    let w2 := snd (Hooks.rerenders f1 ps w1) in
    let w3 := snd (Hooks.unmount f2 w2) in
    Hooks.fiber_model f1 = bound
    ∧ Hooks.fiber_model f2 = bound
    ∧ events_since w w1 = hook_mount_events vmIdentifier bound w
    ∧ Forall (fun e => is_resolver_call e = true) (events_since w1 w2)
    ∧ buckets w2 = addInstance vmIdentifier bound (buckets w)
    ∧ implements w2 = implements w
    ∧ events_since w2 w3 = hook_unmount_events vmIdentifier bound w2
    ∧ count_events is_added (events_since w w3) = 1
    ∧ count_events is_removed (events_since w w3) = 1
    ∧ count_events (is_dispatch onActivate) (events_since w w3)
      = (if implements w bound onActivate then 1 else 0)
    ∧ count_events (is_dispatch onDeactivate) (events_since w w3)
      = (if implements w bound onDeactivate then 1 else 0).
Proof.
  intros vmIdentifier resolver ps w. cbv zeta.
  destruct (hook_cycle_trace vmIdentifier resolver ps w)
    as (Hm1 & Hm2 & Hb2 & Hi2 & _ & _ & _).
  destruct (mount_registers_then_activates vmIdentifier resolver w)
    as (_ & _ & Hb1 & _).
  destruct (hook_cycle_events vmIdentifier resolver ps w)
    as (He1 & He3 & Hall & Hcalls & _).
  cbv zeta in *.
  assert (Hcount : ∀ kind, (∀ e, is_resolver_call e = true → kind e = false) →
    count_events kind (events_since w
      (snd (Hooks.unmount
         (fst (Hooks.rerenders
            (fst (Hooks.mount (Hooks.viewModelBinderProps vmIdentifier resolver
                                 DefaultViewModelRegistry) w)) ps
            (snd (Hooks.mount (Hooks.viewModelBinderProps vmIdentifier resolver
                                 DefaultViewModelRegistry) w))))
         (snd (Hooks.rerenders
            (fst (Hooks.mount (Hooks.viewModelBinderProps vmIdentifier resolver
                                 DefaultViewModelRegistry) w)) ps
            (snd (Hooks.mount (Hooks.viewModelBinderProps vmIdentifier resolver
                                 DefaultViewModelRegistry) w)))))))
    = count_events kind (hook_mount_events vmIdentifier (resolver vmIdentifier None w) w)
      + count_events kind (hook_unmount_events vmIdentifier (resolver vmIdentifier None w)
          (snd (Hooks.rerenders
            (fst (Hooks.mount (Hooks.viewModelBinderProps vmIdentifier resolver
                                 DefaultViewModelRegistry) w)) ps
            (snd (Hooks.mount (Hooks.viewModelBinderProps vmIdentifier resolver
                                 DefaultViewModelRegistry) w)))))).
  { intros kind Hkind. rewrite Hall, !count_events_app.
    rewrite (count_events_resolver_calls kind _ Hcalls Hkind). lia. }
  split_and!; try done.
  - congruence.
  - rewrite Hcount by (by intros []).
    unfold hook_mount_events, hook_unmount_events.
    rewrite !count_events_app.
    destruct (implements w _ onActivate), (implements _ _ onDeactivate); reflexivity.
  - rewrite Hcount by (by intros []).
    unfold hook_mount_events, hook_unmount_events.
    rewrite !count_events_app.
    destruct (implements w _ onActivate), (implements _ _ onDeactivate); reflexivity.
  - rewrite Hcount by (by intros []).
    unfold hook_mount_events, hook_unmount_events. rewrite Hi2.
    rewrite !count_events_app.
    destruct (implements w _ onActivate), (implements w _ onDeactivate); reflexivity.
  - rewrite Hcount by (by intros []).
    unfold hook_mount_events, hook_unmount_events. rewrite Hi2.
    rewrite !count_events_app.
    destruct (implements w _ onActivate), (implements w _ onDeactivate); reflexivity.
Qed.

(** C10.  Through a whole life of the hook no event is a call of
    [onViewLoaded], whatever methods the model has: every lifecycle call is
    [onActivate] or [onDeactivate] on the bound model, with no argument. *)
Theorem hook_never_dispatches_onViewLoaded :
  ∀ (vmIdentifier : ViewModelIdentifier) (resolver : ViewModelResolver)
    (ps : list Hooks.UseBinderProps) (w : World),
    let p := Hooks.viewModelBinderProps vmIdentifier resolver DefaultViewModelRegistry in
    let bound := resolver vmIdentifier None w in
    let f1 := fst (Hooks.mount p w) in
    let w1 := snd (Hooks.mount p w) in
    let f2 := fst (Hooks.rerenders f1 ps w1) in
    let w2 := snd (Hooks.rerenders f1 ps w1) in
    let w3 := snd (Hooks.unmount f2 w2) in
    count_events (is_dispatch onViewLoaded) (events_since w w3) = 0
    ∧ ∀ target method args seen,
        Dispatch target method args seen ∈ events_since w w3 →
        target = bound ∧ args = [] ∧ (method = onActivate ∨ method = onDeactivate).
Proof.
  intros vmIdentifier resolver ps w. cbv zeta.
  destruct (hook_cycle_events vmIdentifier resolver ps w)
    as (_ & _ & Hall & Hcalls & _).
  cbv zeta in *. rewrite Hall. split.
  - rewrite !count_events_app.
    rewrite (count_events_resolver_calls _ _ Hcalls) by (by intros []).
    unfold hook_mount_events, hook_unmount_events.
    rewrite !count_events_app.
    destruct (implements w _ onActivate), (implements _ _ onDeactivate); reflexivity.
  - intros target method args seen Hin.
    rewrite !elem_of_app in Hin. destruct Hin as [Hin|[Hin|Hin]].
    + unfold hook_mount_events in Hin.
      destruct (implements w _ onActivate); cbn in Hin.
      * repeat (apply elem_of_cons in Hin as [Hin|Hin]; [try discriminate Hin|]).
        -- injection Hin as -> -> -> ->. split_and!; [done|done|by left].
        -- by apply not_elem_of_nil in Hin.
      * repeat (apply elem_of_cons in Hin as [Hin|Hin]; [try discriminate Hin|]).
        by apply not_elem_of_nil in Hin.
    + rewrite list.Forall_forall in Hcalls. apply Hcalls in Hin. discriminate Hin.
    + unfold hook_unmount_events in Hin.
      destruct (implements _ _ onDeactivate); cbn in Hin.
      * repeat (apply elem_of_cons in Hin as [Hin|Hin]; [try discriminate Hin|]).
        -- injection Hin as -> -> -> ->. split_and!; [done|done|by right].
        -- by apply not_elem_of_nil in Hin.
      * repeat (apply elem_of_cons in Hin as [Hin|Hin]; [try discriminate Hin|]).
        by apply not_elem_of_nil in Hin.
Qed.
(** ** Further properties of the code *)

(** The older Binder reaches [onActivate] from [componentWillMount] and
    [onViewLoaded] from [componentDidMount], each only when the model has the
    method, and hands each of them one array holding the argument instead of
    the argument. *)
Theorem legacy_mount_wraps_arguments :
  ∀ (this : Binder) (w w' : World),
    trace (snd (Legacy.componentWillMount this w))
      = trace w
        ++ (if implements w (state_model this) onActivate
            then [Dispatch (state_model this) onActivate
                    [VArray [props_value (props this)]] (buckets w)]
            else [])
    ∧ trace (snd (Legacy.componentDidMount this w'))
      = trace w'
        ++ (if implements w' (state_model this) onViewLoaded
            then [Dispatch (state_model this) onViewLoaded
                    [VArray [VRef (viewRef this)]] (buckets w')]
            else []).
Proof.
  intros this w w'.
  unfold Legacy.componentWillMount, Legacy.componentDidMount,
    Legacy.notifyOfViewLifecycle, emit.
  destruct (implements w (state_model this) onActivate);
    destruct (implements w' (state_model this) onViewLoaded); cbn;
    by rewrite ?app_nil_r.
Qed.

(** [componentDidUpdate] looks at the [viewModel] prop only: with that prop
    as before, nothing is called, removed or registered and the bound model
    stays, whatever the identifier, resolver, callbacks and other props were
    before. *)
Theorem componentDidUpdate_same_viewModel_keeps_binding :
  ∀ (this : Binder) (prevIdentifier : ViewModelIdentifier)
    (prevResolver : ViewModelResolver) (prevUnbind prevBind : ViewModel → M unit)
    (prevRest : list (string * string)) (w : World),
    componentDidUpdate this
      {| viewModel := viewModel (props this);
         viewModelIdentifier := prevIdentifier;
         viewModelResolver := prevResolver;
         onUnbind := prevUnbind;
         onBind := prevBind;
         rest := prevRest |} w
    = (this, w).
Proof.
  intros. unfold componentDidUpdate. cbn.
  rewrite decide_False by (intros Hne; by apply Hne). reflexivity.
Qed.

(** Every later run of the hook calls the resolver once more, with the
    props of that run, and does nothing else: the registry and the model
    handed back stay as the mount left them. *)
Theorem hook_rerender_calls_resolver_again :
  ∀ (vmIdentifier : ViewModelIdentifier) (resolver : ViewModelResolver)
    (ps : list Hooks.UseBinderProps) (w : World),
    let p := Hooks.viewModelBinderProps vmIdentifier resolver DefaultViewModelRegistry in
    let f1 := fst (Hooks.mount p w) in
    let w1 := snd (Hooks.mount p w) in
    let f2 := fst (Hooks.rerenders f1 ps w1) in
    let w2 := snd (Hooks.rerenders f1 ps w1) in
    Forall (fun e => is_resolver_call e = true) (events_since w1 w2)
    ∧ length (events_since w1 w2) = length ps
    ∧ buckets w2 = buckets w1
    ∧ Hooks.fiber_model f2 = Hooks.fiber_model f1.
Proof.
  intros vmIdentifier resolver ps w. cbv zeta.
  destruct (hook_cycle_trace vmIdentifier resolver ps w)
    as (Hm1 & Hm2 & Hb2 & _).
  destruct (hook_cycle_events vmIdentifier resolver ps w)
    as (_ & _ & _ & Hcalls & Hlen).
  cbv zeta in *. split_and!; try done. congruence.
Qed.

(** Two Binders for one identifier over a resolver that hands out one and
    the same instance of a class share one entry of the registry: when the
    first of them unmounts, the instance the second one still has bound is
    not listed any more. *)
Theorem shared_instance_unregistered_by_first_unmount :
  ∀ (vmIdentifier : ViewModelIdentifier) (shared : ViewModel)
    (extra : list (string * string)) (w : World),
    is_plain shared = false →
    let p := boundProps vmIdentifier (fun _ _ _ => shared) None extra in
    let first := Binder_constructor p 1%positive w in
    let second := Binder_constructor p 2%positive (snd first) in
    let w' := snd (componentWillUnmount (fst first) (snd second)) in
    state_model (fst second) = shared
    ∧ shared ∈ locateMany (buckets (snd second)) vmIdentifier
    ∧ (shared ∉ locateMany (buckets w') vmIdentifier).
Proof.
  intros vmIdentifier shared extra w Hkept. cbv zeta.
  rewrite !Binder_constructor_run. cbn [fst snd state_model buckets].
  rewrite (componentWillUnmount_run vmIdentifier (fun _ _ _ => shared) None extra)
    by reflexivity.
  cbn [fst snd state_model buckets]. split_and!.
  - reflexivity.
  - rewrite locateMany_addInstance. by apply SetFacts.elem_of_add_kept.
  - rewrite locateMany_removeInstance. intros Hin.
    apply SetFacts.elem_of_delete in Hin as [_ Hne]. done.
Qed.

Lemma shared_instance_unregistered_by_first_unmount_witness :
  let p := boundProps (IdString "UserVM") (fun _ _ _ => Instance 1) None [] in
  let first := Binder_constructor p 1%positive world0 in
  let second := Binder_constructor p 2%positive (snd first) in
  let w' := snd (componentWillUnmount (fst first) (snd second)) in
  is_plain (Instance 1) = false
  ∧ state_model (fst second) = Instance 1
  ∧ (Instance 1 ∉ locateMany (buckets w') (IdString "UserVM")).
Proof.
  destruct (shared_instance_unregistered_by_first_unmount (IdString "UserVM")
              (Instance 1) [] world0 eq_refl) as (Hstate & _ & Hgone).
  cbv zeta. split_and!; [reflexivity | exact Hstate | exact Hgone].
Defined.

(** ** The registry as a map to sets *)

Section registry_algebra.
Implicit Types (b : gmap ViewModelIdentifier (list ViewModel)).
Implicit Types (k j : ViewModelIdentifier) (v x : ViewModel).

Lemma lookup_removeInstance_eq b k v :
  removeInstance k v b !! k
  = match ObservableSet.delete v (locateMany b k) with
    | [] => None
    | s => Some s
    end.
Proof.
  rewrite locateMany_lookup. unfold removeInstance.
  destruct (b !! k) as [s|] eqn:Hk; [|by rewrite Hk].
  cbv zeta. simpl default. case_decide as Hsize.
  - unfold ObservableSet.size in Hsize. apply nil_length_inv in Hsize.
    rewrite Hsize. by rewrite lookup_delete_eq.
  - rewrite lookup_insert_eq.
    destruct (ObservableSet.delete v s); [by destruct Hsize|done].
Qed.

Lemma locateMany_nil_lookup b k :
  registry_invariant b → locateMany b k = [] → b !! k = None.
Proof.
  rewrite registry_invariant_alt, locateMany_lookup. intros Hinv.
  specialize (Hinv k). destruct (b !! k) as [s|]; [|done].
  cbn. intros ->. done.
Qed.

Lemma locateMany_cons_lookup b k x l :
  locateMany b k = x :: l → b !! k = Some (x :: l).
Proof.
  rewrite locateMany_lookup. destruct (b !! k) as [s|]; cbn; [by intros ->|done].
Qed.

Lemma delete_snoc v l :
  v ∉ l → ObservableSet.delete v (l ++ [v]) = l.
Proof.
  intros Hnin. unfold ObservableSet.delete. rewrite list.filter_app.
  fold (ObservableSet.delete v l). rewrite SetFacts.delete_absent by done.
  rewrite filter_cons_False by (intros Hne; by apply Hne).
  by rewrite filter_nil, app_nil_r.
Qed.

Lemma removeInstance_addInstance_fresh b k v :
  registry_invariant b → is_plain v = false → v ∉ locateMany b k →
  removeInstance k v (addInstance k v b) = b.
Proof.
  intros Hinv Hkept Hfresh. apply map_eq. intros j.
  destruct (decide (k = j)) as [<-|Hne].
  - rewrite lookup_removeInstance_eq, locateMany_addInstance.
    rewrite SetFacts.add_fresh by done.
    rewrite SetFacts.deepEnhancer_kept by done. rewrite delete_snoc by done.
    destruct (locateMany b k) as [|x l] eqn:Hl.
    + symmetry. by apply locateMany_nil_lookup.
    + symmetry. by apply locateMany_cons_lookup.
  - by rewrite lookup_removeInstance_ne, lookup_addInstance_ne.
Qed.

(** A plain structure is never listed, so removing it after adding it
    removes nothing: the copy made of it stays. *)
Lemma removeInstance_addInstance_plain b k v :
  reachable b → is_plain v = true →
  removeInstance k v (addInstance k v b) = addInstance k v b
  ∧ locateMany (addInstance k v b) k
    = locateMany b k ++ [ObservableSet.deepEnhancer (objects b) v].
Proof.
  intros Hb Hplain.
  assert (Hnever : ∀ b', reachable b' → v ∉ locateMany b' k).
  { intros b' Hb' Hin. apply (reachable_no_plain b' k v Hb') in Hin. congruence. }
  split.
  - apply removeInstance_absent.
    + by apply reachable_invariant, reachable_add.
    + by apply Hnever, reachable_add.
  - rewrite locateMany_addInstance. apply SetFacts.add_fresh. by apply Hnever.
Qed.

End registry_algebra.

(** Adding an instance that is not listed yet and removing it again: for an
    instance MobX stores as it is, that gives back the registry as it was,
    key for key (an entry made for the instance alone is gone); for a plain
    structure the removal finds nothing, and the copy the registry made of
    it stays listed. *)
Theorem add_remove_round_trip :
  ∀ (b : gmap ViewModelIdentifier (list ViewModel))
    (k : ViewModelIdentifier) (v : ViewModel),
    reachable b →
    v ∉ locateMany b k →
    (is_plain v = false → removeInstance k v (addInstance k v b) = b)
    ∧ (is_plain v = true →
         removeInstance k v (addInstance k v b) = addInstance k v b
         ∧ locateMany (removeInstance k v (addInstance k v b)) k
           = locateMany b k ++ [ObservableSet.deepEnhancer (objects b) v]).
Proof.
  intros b k v Hb Hfresh. split.
  - intros Hkept.
    apply removeInstance_addInstance_fresh; [by apply reachable_invariant|done|done].
  - intros Hplain.
    destruct (removeInstance_addInstance_plain b k v Hb Hplain) as [Hsame Hlist].
    by rewrite Hsame.
Qed.

Lemma add_remove_round_trip_witness :
  let b : gmap ViewModelIdentifier (list ViewModel) :=
    addInstance (IdString "UserVM") (Instance 1) ∅ in
  removeInstance (IdString "UserVM") (Instance 2)
    (addInstance (IdString "UserVM") (Instance 2) b) = b
  ∧ removeInstance (IdSymbol 5) (Instance 1) (addInstance (IdSymbol 5) (Instance 1) b) = b
  ∧ locateMany (removeInstance (IdString "UserVM") (Plain 3)
                  (addInstance (IdString "UserVM") (Plain 3) b)) (IdString "UserVM")
    = [Instance 1; Observable 3 0].
Proof.
  assert (Hb : reachable (addInstance (IdString "UserVM") (Instance 1) ∅))
    by (apply reachable_add, reachable_empty).
  assert (Hl : locateMany (addInstance (IdString "UserVM") (Instance 1) ∅)
                 (IdString "UserVM") = [Instance 1]) by (vm_compute; reflexivity).
  cbv zeta. split_and!.
  - apply (add_remove_round_trip _ (IdString "UserVM") (Instance 2) Hb);
      [|reflexivity].
    rewrite Hl. intros Hin. apply list_elem_of_singleton in Hin. discriminate Hin.
  - apply (add_remove_round_trip _ (IdSymbol 5) (Instance 1) Hb); [|reflexivity].
    vm_compute. apply not_elem_of_nil.
  - assert (Hfresh : Plain 3 ∉ locateMany
              (addInstance (IdString "UserVM") (Instance 1) ∅) (IdString "UserVM")).
    { rewrite Hl. intros Hin. apply list_elem_of_singleton in Hin. discriminate Hin. }
    destruct (add_remove_round_trip _ (IdString "UserVM") (Plain 3) Hb Hfresh)
      as [_ Hplain].
    destruct (Hplain eq_refl) as [_ Hlist]. rewrite Hlist. vm_compute. reflexivity.
Defined.

(** What [locateMany] lists after an operation, for every identifier and
    object: [addInstance k v] adds, under [k] and when [v] is not listed
    there, what the Set stores of [v] ([v] itself unless it is a plain
    structure) and nothing else; [removeInstance k v] takes [v] from under
    [k] and nothing else; the lists under the other identifiers are the same
    lists. *)
Theorem locateMany_after_operation :
  ∀ (b : gmap ViewModelIdentifier (list ViewModel))
    (k j : ViewModelIdentifier) (v x : ViewModel),
    (x ∈ locateMany (addInstance k v b) j
       ↔ x ∈ locateMany b j
         ∨ (j = k ∧ (v ∉ locateMany b k)
            ∧ x = ObservableSet.deepEnhancer (objects b) v))
    ∧ (is_plain v = false →
         x ∈ locateMany (addInstance k v b) j
         ↔ x ∈ locateMany b j ∨ (j = k ∧ x = v))
    ∧ (x ∈ locateMany (removeInstance k v b) j
       ↔ x ∈ locateMany b j ∧ ¬ (j = k ∧ x = v))
    ∧ (j ≠ k → locateMany (addInstance k v b) j = locateMany b j
               ∧ locateMany (removeInstance k v b) j = locateMany b j).
Proof.
  intros b k j v x. destruct (decide (k = j)) as [<-|Hne].
  - rewrite locateMany_addInstance, locateMany_removeInstance.
    rewrite SetFacts.elem_of_add, SetFacts.elem_of_delete.
    split_and!; [intuition | | intuition | done].
    intros Hkept. rewrite SetFacts.deepEnhancer_kept by done.
    destruct (decide (v ∈ locateMany b k)); intuition congruence.
  - rewrite !locateMany_lookup, lookup_addInstance_ne, lookup_removeInstance_ne by done.
    split_and!; [intuition congruence | intuition congruence | intuition congruence
                | done].
Qed.

(** [locateFirst] answers [null] exactly when nothing is listed under the
    identifier, and otherwise the object that was put there first: a further
    [addInstance] under the identifier never changes the answer unless there
    was none, and then the answer is what the Set stores of the added
    instance: the instance, or the copy of a plain structure. *)
Theorem locateFirst_is_first_registered :
  ∀ (b : gmap ViewModelIdentifier (list ViewModel))
    (k : ViewModelIdentifier) (v : ViewModel),
    (locateFirst b k = None ↔ locateMany b k = [])
    ∧ locateFirst (addInstance k v b) k
      = Some (default (ObservableSet.deepEnhancer (objects b) v) (locateFirst b k))
    ∧ (is_plain v = false →
         locateFirst (addInstance k v b) k = Some (default v (locateFirst b k))).
Proof.
  intros b k v.
  assert (Hfirst : locateFirst (addInstance k v b) k
      = Some (default (ObservableSet.deepEnhancer (objects b) v) (locateFirst b k))).
  { unfold locateFirst. rewrite locateMany_addInstance. unfold ObservableSet.add.
    destruct (locateMany b k) as [|x l]; [done|]. by case_decide. }
  unfold locateFirst in *. split_and!.
  - by destruct (locateMany b k).
  - exact Hfirst.
  - intros Hkept. rewrite Hfirst. by rewrite SetFacts.deepEnhancer_kept.
Qed.

(** In every state the registry can reach, no list repeats an instance (the
    lists are Sets), so removing the instance [locateFirst] answers makes
    the one registered next the answer; and an identifier is a key of the map
    exactly when [locateFirst] has an answer. *)
Theorem reachable_lists_are_sets :
  ∀ (b : gmap ViewModelIdentifier (list ViewModel)) (k : ViewModelIdentifier),
    reachable b →
    NoDup (locateMany b k)
    ∧ (∀ x l, locateMany b k = x :: l →
              locateMany (removeInstance k x b) k = l
              ∧ locateFirst (removeInstance k x b) k = head l)
    ∧ (b !! k = None ↔ locateFirst b k = None).
Proof.
  intros b k Hb. pose proof (reachable_NoDup b k Hb) as Hnd. split_and!.
  - exact Hnd.
  - intros x l Hl. unfold locateFirst. rewrite locateMany_removeInstance, Hl.
    rewrite Hl in Hnd. apply list.NoDup_cons in Hnd as [Hx _].
    unfold ObservableSet.delete.
    rewrite filter_cons_False by (intros Hne; by apply Hne).
    fold (ObservableSet.delete x l). by rewrite SetFacts.delete_absent.
  - unfold locateFirst. split.
    + intros Hk. by rewrite locateMany_lookup, Hk.
    + intros Hhead. apply locateMany_nil_lookup; [by apply reachable_invariant|].
      by destruct (locateMany b k).
Qed.

Lemma reachable_lists_are_sets_witness :
  let b : gmap ViewModelIdentifier (list ViewModel) :=
    addInstance (IdString "UserVM") (Instance 2)
      (addInstance (IdString "UserVM") (Instance 1) ∅) in
  locateMany b (IdString "UserVM") = [Instance 1; Instance 2]
  ∧ NoDup (locateMany b (IdString "UserVM"))
  ∧ locateFirst (removeInstance (IdString "UserVM") (Instance 1) b) (IdString "UserVM")
    = Some (Instance 2).
Proof.
  assert (Hb : reachable (addInstance (IdString "UserVM") (Instance 2)
                            (addInstance (IdString "UserVM") (Instance 1) ∅)))
    by (do 2 apply reachable_add; apply reachable_empty).
  assert (Hl : locateMany (addInstance (IdString "UserVM") (Instance 2)
                             (addInstance (IdString "UserVM") (Instance 1) ∅))
                 (IdString "UserVM") = [Instance 1; Instance 2])
    by (vm_compute; reflexivity).
  destruct (reachable_lists_are_sets _ (IdString "UserVM") Hb) as (Hnd & Hnext & _).
  cbv zeta. split_and!; [exact Hl | exact Hnd |].
  exact (proj2 (Hnext _ _ Hl)).
Defined.

(** Doing a registry operation twice: a second [removeInstance] changes
    nothing, in every state, and so does a second [addInstance] of an
    instance MobX stores as it is.  A second [addInstance] of a plain
    structure does not find it listed and puts a second copy, another
    object, behind the first. *)
Theorem registry_operations_repeated :
  ∀ (b : gmap ViewModelIdentifier (list ViewModel))
    (k : ViewModelIdentifier) (v : ViewModel),
    (is_plain v = false → addInstance k v (addInstance k v b) = addInstance k v b)
    ∧ removeInstance k v (removeInstance k v b) = removeInstance k v b
    ∧ (is_plain v = true → reachable b →
         ∃ first second,
           first ≠ second
           ∧ locateMany (addInstance k v (addInstance k v b)) k
             = locateMany b k ++ [first; second]).
Proof.
  intros b k v. split_and!.
  - intros Hkept. apply addInstance_present. rewrite locateMany_addInstance.
    by apply SetFacts.elem_of_add_kept.
  - apply map_eq. intros j. destruct (decide (k = j)) as [<-|Hne].
    + rewrite (lookup_removeInstance_eq (removeInstance k v b)).
      rewrite locateMany_removeInstance.
      rewrite (SetFacts.delete_absent v (ObservableSet.delete v (locateMany b k))).
      * by rewrite lookup_removeInstance_eq.
      * intros Hin. apply SetFacts.elem_of_delete in Hin as [_ Hne]. done.
    + by rewrite !lookup_removeInstance_ne.
  - intros Hplain Hb.
    destruct (removeInstance_addInstance_plain b k v Hb Hplain) as [_ Hone].
    destruct (removeInstance_addInstance_plain (addInstance k v b) k v
                (reachable_add k v b Hb) Hplain) as [_ Htwo].
    exists (ObservableSet.deepEnhancer (objects b) v),
           (ObservableSet.deepEnhancer (objects (addInstance k v b)) v).
    split.
    + intros Heq.
      destruct (SetFacts.deepEnhancer_new (objects (addInstance k v b)) v Hplain)
        as (Hnew & _). apply Hnew. rewrite <- Heq.
      apply (locateMany_objects _ k). rewrite Hone, elem_of_app. right.
      apply list_elem_of_here.
    + by rewrite Htwo, Hone, <- app_assoc.
Qed.

(** ** More on the Binder *)

Lemma events_since_trans w w1 w2 l1 l2 :
  trace w1 = trace w ++ l1 → trace w2 = trace w1 ++ l2 →
  events_since w w2 = l1 ++ l2.
Proof.
  intros H1 H2. apply events_since_app. by rewrite H2, H1, <- app_assoc.
Qed.

Lemma componentDidMount_trace this w :
  trace (snd (componentDidMount this w))
  = trace w
    ++ (if implements w (state_model this) onActivate
        then [Dispatch (state_model this) onActivate [props_value (props this)] (buckets w)]
        else [])
    ++ (if implements w (state_model this) onViewLoaded
        then [Dispatch (state_model this) onViewLoaded [VRef (viewRef this)] (buckets w)]
        else []).
Proof.
  run_M.
  destruct (implements w (state_model this) onActivate); cbn;
    destruct (implements w (state_model this) onViewLoaded); cbn;
    by rewrite <- ?app_assoc, ?app_nil_r.
Qed.

Lemma componentDidMount_events this w :
  events_since w (snd (componentDidMount this w))
  = (if implements w (state_model this) onActivate
     then [Dispatch (state_model this) onActivate [props_value (props this)] (buckets w)]
     else [])
    ++ (if implements w (state_model this) onViewLoaded
        then [Dispatch (state_model this) onViewLoaded [VRef (viewRef this)] (buckets w)]
        else [])
  ∧ implements (snd (componentDidMount this w)) = implements w.
Proof.
  split.
  - apply events_since_app, componentDidMount_trace.
  - run_M. destruct (implements w (state_model this) onActivate); cbn;
      by destruct (implements w (state_model this) onViewLoaded).
Qed.

Lemma componentWillUnmount_trace vmIdentifier model extra resolver this w :
  props this = boundProps vmIdentifier resolver model extra →
  trace (snd (componentWillUnmount this w))
    = trace w
      ++ (if implements w (state_model this) onDeactivate
          then [Dispatch (state_model this) onDeactivate [] (buckets w)]
          else [])
      ++ [Removed vmIdentifier (state_model this)
            (removeInstance vmIdentifier (state_model this) (buckets w))]
  ∧ buckets (snd (componentWillUnmount this w))
    = removeInstance vmIdentifier (state_model this) (buckets w).
Proof.
  intros Hp. by rewrite (componentWillUnmount_run _ _ _ _ this w Hp).
Qed.

(** What a prop change shows when the [viewModel] prop differs. *)
Lemma receiveProps_events vmIdentifier resolver' model' extra' this w :
  viewModel (props this) ≠ model' →
  let p' := boundProps vmIdentifier resolver' model' extra' in
  let old := state_model this in
  let new := state_model (fst (receiveProps this p' w)) in
  let r1 := removeInstance vmIdentifier old (buckets w) in
  events_since w (snd (receiveProps this p' w))
  = (if implements w old onDeactivate
     then [Dispatch old onDeactivate [] (buckets w)] else [])
    ++ [Removed vmIdentifier old r1]
    ++ match model' with
       | Some _ => []
       | None => [ResolverCall vmIdentifier (Some extra') new r1]
       end
    ++ [Rendered new r1; Added vmIdentifier new (addInstance vmIdentifier new r1)]
  ∧ buckets (snd (receiveProps this p' w)) = addInstance vmIdentifier new r1
  ∧ implements (snd (receiveProps this p' w)) = implements w
  ∧ props (fst (receiveProps this p' w)) = p'
  ∧ (∀ vm, model' = Some vm → new = vm).
Proof.
  intros Hne. cbv zeta.
  rewrite (receiveProps_run vmIdentifier resolver' model' extra' this w Hne).
  cbv zeta. cbn [fst snd state_model props buckets implements].
  split_and!; try done.
  - apply events_since_app. cbn [trace]. by rewrite <- !app_assoc.
  - by intros vm ->.
Qed.

Lemma receiveProps_unchanged vmIdentifier resolver' extra' this w :
  receiveProps this (boundProps vmIdentifier resolver' (viewModel (props this)) extra') w
  = ({| props := boundProps vmIdentifier resolver' (viewModel (props this)) extra';
        state_model := state_model this; viewRef := viewRef this |}, w).
Proof.
  unfold receiveProps, componentDidUpdate. cbn.
  by rewrite decide_False by (intros Hne; by apply Hne).
Qed.

(** A prop change never activates anything: the only lifecycle method
    [componentDidUpdate] calls is [onDeactivate], with no argument, on the
    instance bound so far and with the registry as it was.  The instance
    bound by the change gets neither [onActivate] nor [onViewLoaded], and the
    unmount that follows calls [onDeactivate] on it all the same. *)
Theorem rebind_never_activates :
  ∀ (vmIdentifier : ViewModelIdentifier) (resolver' : ViewModelResolver)
    (model' : option ViewModel) (extra' : list (string * string))
    (this : Binder) (w : World),
    let p' := boundProps vmIdentifier resolver' model' extra' in
    let this' := fst (receiveProps this p' w) in
    let w' := snd (receiveProps this p' w) in
    (∀ target method args seen,
       Dispatch target method args seen ∈ events_since w w' →
       target = state_model this ∧ method = onDeactivate ∧ args = []
       ∧ seen = buckets w)
    ∧ count_events (is_dispatch onActivate) (events_since w w') = 0
    ∧ count_events (is_dispatch onViewLoaded) (events_since w w') = 0
    ∧ events_since w' (snd (componentWillUnmount this' w'))
      = (if implements w' (state_model this') onDeactivate
         then [Dispatch (state_model this') onDeactivate [] (buckets w')]
         else [])
        ++ [Removed vmIdentifier (state_model this')
              (removeInstance vmIdentifier (state_model this') (buckets w'))].
Proof.
  intros vmIdentifier resolver' model' extra' this w. cbv zeta.
  assert (Hunmount : ∀ this' w',
    props this' = boundProps vmIdentifier resolver' model' extra' →
    events_since w' (snd (componentWillUnmount this' w'))
    = (if implements w' (state_model this') onDeactivate
       then [Dispatch (state_model this') onDeactivate [] (buckets w')]
       else [])
      ++ [Removed vmIdentifier (state_model this')
            (removeInstance vmIdentifier (state_model this') (buckets w'))]).
  { intros this' w' Hprops. apply events_since_app.
    by apply (componentWillUnmount_trace vmIdentifier model' extra' resolver'). }
  destruct (decide (viewModel (props this) = model')) as [<-|Hne].
  - rewrite receiveProps_unchanged. cbn [fst snd].
    assert (Hnil : events_since w w = []).
    { apply events_since_app. by rewrite app_nil_r. }
    rewrite Hnil. split_and!; try done.
    + intros target method args seen Hin. by apply not_elem_of_nil in Hin.
    + by apply Hunmount.
  - destruct (receiveProps_events vmIdentifier resolver' model' extra' this w Hne)
      as (Hev & _ & _ & Hprops & _).
    cbv zeta in *. rewrite Hev. split_and!.
    + intros target method args seen Hin.
      rewrite !elem_of_app in Hin. destruct Hin as [Hin|[Hin|[Hin|Hin]]].
      * destruct (implements w (state_model this) onDeactivate);
          [|by apply not_elem_of_nil in Hin].
        apply list_elem_of_singleton in Hin. by injection Hin as -> -> -> ->.
      * apply list_elem_of_singleton in Hin. discriminate Hin.
      * destruct model'; [by apply not_elem_of_nil in Hin|].
        apply list_elem_of_singleton in Hin. discriminate Hin.
      * apply elem_of_cons in Hin as [Hin|Hin]; [discriminate Hin|].
        apply list_elem_of_singleton in Hin. discriminate Hin.
    + rewrite !count_events_app.
      destruct (implements w (state_model this) onDeactivate), model'; reflexivity.
    + rewrite !count_events_app.
      destruct (implements w (state_model this) onDeactivate), model'; reflexivity.
    + by apply Hunmount.
Qed.

(** Handing a Binder, as its [model] prop, the very instance it has
    resolved and bound counts as a change: the instance gets [onDeactivate]
    and is removed, the view is rendered with it while it is not listed, and
    it is registered again, which puts what the Set stores of it (the
    instance itself, when MobX stores it as it is) at the end of the list
    under the identifier; it stays the bound model. *)
Theorem rebind_to_bound_instance :
  ∀ (vmIdentifier : ViewModelIdentifier) (resolver resolver' : ViewModelResolver)
    (extra extra' : list (string * string)) (bound : ViewModel) (ref : positive)
    (w : World),
    let this := {| props := boundProps vmIdentifier resolver None extra;
                   state_model := bound; viewRef := ref |} in
    let p' := boundProps vmIdentifier resolver' (Some bound) extra' in
    let w' := snd (receiveProps this p' w) in
    let r1 := removeInstance vmIdentifier bound (buckets w) in
    state_model (fst (receiveProps this p' w)) = bound
    ∧ events_since w w'
      = (if implements w bound onDeactivate
         then [Dispatch bound onDeactivate [] (buckets w)] else [])
        ++ [Removed vmIdentifier bound r1;
            Rendered bound r1;
            Added vmIdentifier bound (buckets w')]
    ∧ (bound ∉ locateMany r1 vmIdentifier)
    ∧ locateMany (buckets w') vmIdentifier
      = ObservableSet.delete bound (locateMany (buckets w) vmIdentifier)
        ++ [ObservableSet.deepEnhancer (objects r1) bound]
    ∧ (is_plain bound = false →
         locateMany (buckets w') vmIdentifier
         = ObservableSet.delete bound (locateMany (buckets w) vmIdentifier) ++ [bound]).
Proof.
  intros vmIdentifier resolver resolver' extra extra' bound ref w. cbv zeta.
  destruct (receiveProps_events vmIdentifier resolver' (Some bound) extra'
              {| props := boundProps vmIdentifier resolver None extra;
                 state_model := bound; viewRef := ref |} w)
    as (Hev & Hb & _ & _ & Hnew); [done|].
  cbv zeta in *. cbn [state_model] in *.
  rewrite (Hnew bound eq_refl) in Hev, Hb.
  assert (Hgone : bound ∉ locateMany (removeInstance vmIdentifier bound (buckets w))
                            vmIdentifier).
  { rewrite locateMany_removeInstance. intros Hin.
    apply SetFacts.elem_of_delete in Hin as [_ Hne]. done. }
  assert (Hlist : locateMany (addInstance vmIdentifier bound
                      (removeInstance vmIdentifier bound (buckets w))) vmIdentifier
    = ObservableSet.delete bound (locateMany (buckets w) vmIdentifier)
      ++ [ObservableSet.deepEnhancer
            (objects (removeInstance vmIdentifier bound (buckets w))) bound]).
  { rewrite locateMany_addInstance, SetFacts.add_fresh by done.
    by rewrite locateMany_removeInstance. }
  split_and!.
  - by apply Hnew.
  - rewrite Hev, Hb. reflexivity.
  - exact Hgone.
  - by rewrite Hb.
  - intros Hkept. rewrite Hb, Hlist. by rewrite SetFacts.deepEnhancer_kept.
Qed.

(** A Binder that binds an instance nobody had registered, once it has been
    mounted and unmounted: when the instance is one MobX stores as it is, the
    registry is exactly as the Binder found it; when it is a plain structure,
    the unmount removes nothing and the copy the registry made of it stays
    listed. *)
Theorem binder_lifetime_leaves_registry :
  ∀ (vmIdentifier : ViewModelIdentifier) (resolver : ViewModelResolver)
    (model : option ViewModel) (extra : list (string * string))
    (ref : positive) (w : World),
    let p := boundProps vmIdentifier resolver model extra in
    let this := fst (Binder_constructor p ref w) in
    let w1 := snd (Binder_constructor p ref w) in
    let w2 := snd (componentDidMount this w1) in
    let w3 := snd (componentWillUnmount this w2) in
    reachable (buckets w) →
    state_model this ∉ locateMany (buckets w) vmIdentifier →
    (is_plain (state_model this) = false → buckets w3 = buckets w)
    ∧ (is_plain (state_model this) = true →
         buckets w3 = buckets w1
         ∧ locateMany (buckets w3) vmIdentifier
           = locateMany (buckets w) vmIdentifier
             ++ [ObservableSet.deepEnhancer (objects (buckets w)) (state_model this)]).
Proof.
  intros vmIdentifier resolver model extra ref w. cbv zeta.
  rewrite Binder_constructor_run. cbn [fst snd state_model].
  set (bound := match model with
                | Some vm => vm
                | None => resolver vmIdentifier (Some extra) w
                end).
  intros Hb Hfresh.
  rewrite (componentWillUnmount_run vmIdentifier resolver model extra) by reflexivity.
  cbn [snd buckets state_model]. rewrite componentDidMount_buckets. cbn [buckets].
  split.
  - intros Hkept.
    apply removeInstance_addInstance_fresh; [by apply reachable_invariant|done|done].
  - intros Hplain.
    destruct (removeInstance_addInstance_plain (buckets w) vmIdentifier bound Hb Hplain)
      as [Hsame Hlist].
    by rewrite Hsame.
Qed.

Lemma binder_lifetime_leaves_registry_witness :
  let b : gmap ViewModelIdentifier (list ViewModel) :=
    addInstance (IdString "UserVM") (Instance 5) ∅ in
  let w := {| buckets := b; implements := fun _ _ => true; trace := [] |} in
  let p := boundProps (IdString "UserVM") singleton_resolver None [] in
  let this := fst (Binder_constructor p 7%positive w) in
  let w2 := snd (componentDidMount this (snd (Binder_constructor p 7%positive w))) in
  let q := boundProps (IdString "UserVM") literal_resolver None [] in
  let that := fst (Binder_constructor q 8%positive w) in
  let v2 := snd (componentDidMount that (snd (Binder_constructor q 8%positive w))) in
  locateMany (buckets w2) (IdString "UserVM") = [Instance 5; Instance 1]
  ∧ buckets (snd (componentWillUnmount this w2)) = b
  ∧ locateMany (buckets (snd (componentWillUnmount that v2))) (IdString "UserVM")
    = [Instance 5; Observable 1 0].
Proof.
  assert (Hb : reachable (addInstance (IdString "UserVM") (Instance 5) ∅))
    by (apply reachable_add, reachable_empty).
  assert (Hl : locateMany (addInstance (IdString "UserVM") (Instance 5) ∅)
                 (IdString "UserVM") = [Instance 5]) by (vm_compute; reflexivity).
  cbv zeta. split_and!.
  - vm_compute. reflexivity.
  - apply (binder_lifetime_leaves_registry (IdString "UserVM") singleton_resolver None []
             7%positive
             {| buckets := addInstance (IdString "UserVM") (Instance 5) ∅;
                implements := fun _ _ => true; trace := [] |}); [exact Hb| |reflexivity].
    cbn [buckets]. rewrite Hl. intros Hin.
    apply list_elem_of_singleton in Hin. discriminate Hin.
  - destruct (binder_lifetime_leaves_registry (IdString "UserVM") literal_resolver None []
             8%positive
             {| buckets := addInstance (IdString "UserVM") (Instance 5) ∅;
                implements := fun _ _ => true; trace := [] |}) as [_ Hplain];
      [exact Hb| |].
    + cbn [buckets]. rewrite Hl. intros Hin.
      apply list_elem_of_singleton in Hin. discriminate Hin.
    + destruct (Hplain eq_refl) as [_ Hlist]. rewrite Hlist. vm_compute. reflexivity.
Defined.

(** ** More on the hook *)

Lemma useBinder_run (p : Hooks.UseBinderProps) cell w :
  buckets (snd (Hooks.useBinder p cell w)) = buckets w
  ∧ implements (snd (Hooks.useBinder p cell w)) = implements w
  ∧ trace (snd (Hooks.useBinder p cell w))
    = trace w ++ [ResolverCall (Hooks.viewModelIdentifier p) None
                    (Hooks.viewModelResolver p (Hooks.viewModelIdentifier p) None w)
                    (buckets w)]
  ∧ Hooks.model (fst (Hooks.useBinder p cell w))
    = default (Hooks.viewModelResolver p (Hooks.viewModelIdentifier p) None w) cell.
Proof.
  unfold Hooks.useBinder, Hooks.useState, call_resolver, bind, ret, emit.
  by destruct cell.
Qed.

Lemma hook_cleanup_buckets vmIdentifier resolver w w2 :
  buckets (snd (Hooks.fiber_cleanup
                  (fst (Hooks.mount
                     (Hooks.viewModelBinderProps vmIdentifier resolver
                        DefaultViewModelRegistry) w)) w2))
  = removeInstance vmIdentifier (resolver vmIdentifier None w) (buckets w2).
Proof.
  unfold Hooks.mount, Hooks.useBinder, Hooks.useState, Hooks.viewModelBinderProps,
    call_resolver, bind, ret, emit, get_buckets, put_buckets.
  cbn.
  destruct (implements w (resolver vmIdentifier None w) onActivate); cbn;
    by destruct (implements w2 (resolver vmIdentifier None w) onDeactivate).
Qed.

(** A run of [useBinder] only calls the resolver: it registers nothing, so
    the model it hands to the component is not put into the registry by the
    render.  The registration is left to the effect, which runs it before
    [onActivate]: the call sees the registry after the registration, with
    the model listed under the identifier when it is one MobX stores as it
    is. *)
Theorem hook_registers_in_effect :
  ∀ (p : Hooks.UseBinderProps) (cell : option ViewModel)
    (vmIdentifier : ViewModelIdentifier) (resolver : ViewModelResolver) (w : World),
    let run := Hooks.useBinder p cell w in
    let mounted := Hooks.mount
      (Hooks.viewModelBinderProps vmIdentifier resolver DefaultViewModelRegistry) w in
    buckets (snd run) = buckets w
    ∧ events_since w (snd run)
      = [ResolverCall (Hooks.viewModelIdentifier p) None
           (Hooks.viewModelResolver p (Hooks.viewModelIdentifier p) None w) (buckets w)]
    ∧ Hooks.model (fst run)
      = default (Hooks.viewModelResolver p (Hooks.viewModelIdentifier p) None w) cell
    ∧ ∀ e, e ∈ events_since w (snd mounted) →
           is_dispatch onActivate e = true →
           snapshot e
           = addInstance vmIdentifier (Hooks.fiber_model (fst mounted)) (buckets w)
           ∧ (is_plain (Hooks.fiber_model (fst mounted)) = false →
                Hooks.fiber_model (fst mounted) ∈ locateMany (snapshot e) vmIdentifier).
Proof.
  intros p cell vmIdentifier resolver w. cbv zeta.
  destruct (useBinder_run p cell w) as (Hb & _ & Ht & Hm).
  split_and!; [exact Hb | by apply events_since_app | exact Hm |].
  destruct (mount_registers_then_activates vmIdentifier resolver w)
    as (_ & Hmodel & _ & _ & Htrace & _).
  cbv zeta in *. rewrite (events_since_app _ _ _ Htrace), Hmodel.
  intros e He Hd. unfold hook_mount_events in He.
  apply elem_of_app in He as [He|He].
  - repeat (apply elem_of_cons in He as [->|He]; [discriminate Hd|]).
    by apply not_elem_of_nil in He.
  - destruct (implements w _ onActivate); [|by apply not_elem_of_nil in He].
    apply list_elem_of_singleton in He as ->. cbn [snapshot]. split; [done|].
    intros Hkept. rewrite locateMany_addInstance. by apply SetFacts.elem_of_add_kept.
Qed.

(** A component that uses the hook and whose first run resolves an
    instance nobody had registered, after its mount, any later runs and its
    unmount: when the instance is one MobX stores as it is, the registry is
    exactly as the component found it; when it is a plain structure, the
    copy the registry made of it stays listed. *)
Theorem hook_lifetime_leaves_registry :
  ∀ (vmIdentifier : ViewModelIdentifier) (resolver : ViewModelResolver)
    (ps : list Hooks.UseBinderProps) (w : World),
    let p := Hooks.viewModelBinderProps vmIdentifier resolver DefaultViewModelRegistry in
    let bound := resolver vmIdentifier None w in
    let f1 := fst (Hooks.mount p w) in
    let w1 := snd (Hooks.mount p w) in
    let f2 := fst (Hooks.rerenders f1 ps w1) in
    let w2 := snd (Hooks.rerenders f1 ps w1) in
    let w3 := snd (Hooks.unmount f2 w2) in
    reachable (buckets w) →
    bound ∉ locateMany (buckets w) vmIdentifier →
    (is_plain bound = false → buckets w3 = buckets w)
    ∧ (is_plain bound = true →
         buckets w3 = buckets w1
         ∧ locateMany (buckets w3) vmIdentifier
           = locateMany (buckets w) vmIdentifier
             ++ [ObservableSet.deepEnhancer (objects (buckets w)) bound]).
Proof.
  intros vmIdentifier resolver ps w. cbv zeta. intros Hb Hfresh.
  destruct (mount_registers_then_activates vmIdentifier resolver w)
    as (Hcell & Hmodel & Hb1 & _).
  destruct (rerenders_keep_model ps _
              (snd (Hooks.mount (Hooks.viewModelBinderProps vmIdentifier resolver
                                   DefaultViewModelRegistry) w)) _ Hcell Hmodel)
    as (_ & _ & Hclean & Hb2 & _).
  unfold Hooks.unmount. rewrite Hclean, hook_cleanup_buckets, Hb2, Hb1.
  split.
  - intros Hkept.
    apply removeInstance_addInstance_fresh; [by apply reachable_invariant|done|done].
  - intros Hplain.
    destruct (removeInstance_addInstance_plain (buckets w) vmIdentifier
                (resolver vmIdentifier None w) Hb Hplain) as [Hsame Hlist].
    by rewrite Hsame.
Qed.

Lemma hook_lifetime_leaves_registry_witness :
  let b : gmap ViewModelIdentifier (list ViewModel) :=
    addInstance (IdString "UserVM") (Instance 5) ∅ in
  let w := {| buckets := b; implements := fun _ _ => true; trace := [] |} in
  let p := Hooks.viewModelBinderProps (IdString "UserVM") singleton_resolver
             DefaultViewModelRegistry in
  let w1 := snd (Hooks.mount p w) in
  let f2 := fst (Hooks.rerenders (fst (Hooks.mount p w)) [p; p] w1) in
  let w2 := snd (Hooks.rerenders (fst (Hooks.mount p w)) [p; p] w1) in
  locateMany (buckets w2) (IdString "UserVM") = [Instance 5; Instance 1]
  ∧ buckets (snd (Hooks.unmount f2 w2)) = b.
Proof.
  cbv zeta. split; [vm_compute; reflexivity|].
  apply (hook_lifetime_leaves_registry (IdString "UserVM") singleton_resolver
           [Hooks.viewModelBinderProps (IdString "UserVM") singleton_resolver
              DefaultViewModelRegistry;
            Hooks.viewModelBinderProps (IdString "UserVM") singleton_resolver
              DefaultViewModelRegistry]
           {| buckets := addInstance (IdString "UserVM") (Instance 5) ∅;
              implements := fun _ _ => true; trace := [] |}).
  - apply reachable_add, reachable_empty.
  - vm_compute. intros Hin. apply list_elem_of_singleton in Hin. discriminate Hin.
  - reflexivity.
Defined.

(** ** BoundViewModel *)

Lemma BoundViewModel_after_app target l1 l2 self :
  BoundViewModel_after target (l1 ++ l2) self
  = BoundViewModel_after target l2 (BoundViewModel_after target l1 self).
Proof. unfold BoundViewModel_after. apply fold_left_app. Qed.

Lemma BoundViewModel_after_resolver_calls target calls self :
  Forall (fun e => is_resolver_call e = true) calls →
  BoundViewModel_after target calls self = self.
Proof.
  intros Hcalls. revert self.
  induction Hcalls as [|e l He _ IH]; intros self; [done|].
  destruct e; try discriminate He. apply IH.
Qed.

(** A [BoundViewModel] bound by a Binder holds, once the Binder is mounted,
    the Binder's [viewRef]; the unmount does not take it back, since
    [onDeactivate] does nothing.  Bound by the older Binder it holds an array
    with the ref in it. *)
Theorem boundViewModel_keeps_viewRef :
  ∀ (vmIdentifier : ViewModelIdentifier) (resolver : ViewModelResolver)
    (model : option ViewModel) (extra : list (string * string))
    (bound : ViewModel) (ref : positive) (w : World) (self : BoundViewModel),
    let this := {| props := boundProps vmIdentifier resolver model extra;
                   state_model := bound; viewRef := ref |} in
    let w1 := snd (componentDidMount this w) in
    let w2 := snd (componentWillUnmount this w1) in
    let legacy := snd (Legacy.componentDidMount this
                         (snd (Legacy.componentWillMount this w))) in
    (∀ method, implements w bound method = true) →
    bvm_viewRef (BoundViewModel_after bound (events_since w w1) self)
      = Holds (VRef ref)
    ∧ bvm_viewRef (BoundViewModel_after bound (events_since w w2) self)
      = Holds (VRef ref)
    ∧ bvm_viewRef (BoundViewModel_after bound (events_since w legacy) self)
      = Holds (VArray [VRef ref]).
Proof.
  intros vmIdentifier resolver model extra bound ref w self. cbv zeta.
  intros Himpl.
  set (this := {| props := boundProps vmIdentifier resolver model extra;
                  state_model := bound; viewRef := ref |}).
  destruct (componentDidMount_events this w) as [Hev Hi].
  pose proof (componentDidMount_trace this w) as Ht1.
  destruct (componentWillUnmount_trace vmIdentifier model extra resolver this
              (snd (componentDidMount this w))) as [Ht2 _]; [reflexivity|].
  pose proof (events_since_trans _ _ _ _ _ Ht1 Ht2) as Hall.
  cbn [state_model viewRef props this] in Hev, Hall.
  rewrite Hi in Hall. rewrite !Himpl in Hev, Hall.
  split_and!.
  - rewrite Hev. cbn. by repeat case_decide.
  - rewrite Hall, ?Himpl. cbn. by repeat case_decide.
  - unfold Legacy.componentDidMount, Legacy.componentWillMount,
      Legacy.notifyOfViewLifecycle, emit, events_since.
    cbn. rewrite !Himpl. cbn. rewrite Himpl. cbn.
    rewrite <- app_assoc, drop_app_length. cbn. by repeat case_decide.
Qed.

Lemma boundViewModel_keeps_viewRef_witness :
  let this := {| props := boundProps (IdString "UserVM") singleton_resolver None [];
                 state_model := Instance 1; viewRef := 7%positive |} in
  let w1 := snd (componentDidMount this world0) in
  let w2 := snd (componentWillUnmount this w1) in
  bvm_viewRef (BoundViewModel_after (Instance 1) (events_since world0 w1) BoundViewModel_new)
    = Holds (VRef 7%positive)
  ∧ bvm_viewRef (BoundViewModel_after (Instance 1) (events_since world0 w2) BoundViewModel_new)
    = Holds (VRef 7%positive).
Proof.
  destruct (boundViewModel_keeps_viewRef (IdString "UserVM") singleton_resolver None []
              (Instance 1) 7%positive world0 BoundViewModel_new (fun _ => eq_refl))
    as (Hmounted & Hunmounted & _).
  cbv zeta. split; [exact Hmounted | exact Hunmounted].
Defined.

(** Through a whole life of the hook a [BoundViewModel] is left as it was:
    [onViewLoaded] is never called and the two methods that are called do
    nothing, so the [viewRef] of a new instance stays [null]. *)
Theorem hook_never_sets_viewRef :
  ∀ (vmIdentifier : ViewModelIdentifier) (resolver : ViewModelResolver)
    (ps : list Hooks.UseBinderProps) (w : World)
    (target : ViewModel) (self : BoundViewModel),
    let p := Hooks.viewModelBinderProps vmIdentifier resolver DefaultViewModelRegistry in
    let f1 := fst (Hooks.mount p w) in
    let w1 := snd (Hooks.mount p w) in
    let f2 := fst (Hooks.rerenders f1 ps w1) in
    let w2 := snd (Hooks.rerenders f1 ps w1) in
    let w3 := snd (Hooks.unmount f2 w2) in
    BoundViewModel_after target (events_since w w3) self = self
    ∧ bvm_viewRef (BoundViewModel_after (Hooks.fiber_model f2) (events_since w w3)
                     BoundViewModel_new) = Null.
Proof.
  intros vmIdentifier resolver ps w target self. cbv zeta.
  destruct (hook_cycle_events vmIdentifier resolver ps w)
    as (_ & _ & Hall & Hcalls & _).
  cbv zeta in *.
  assert (Hsame : ∀ target self,
    BoundViewModel_after target
      (hook_mount_events vmIdentifier (resolver vmIdentifier None w) w
       ++ events_since
            (snd (Hooks.mount (Hooks.viewModelBinderProps vmIdentifier resolver
                                 DefaultViewModelRegistry) w))
            (snd (Hooks.rerenders
               (fst (Hooks.mount (Hooks.viewModelBinderProps vmIdentifier resolver
                                    DefaultViewModelRegistry) w)) ps
               (snd (Hooks.mount (Hooks.viewModelBinderProps vmIdentifier resolver
                                    DefaultViewModelRegistry) w))))
       ++ hook_unmount_events vmIdentifier (resolver vmIdentifier None w)
            (snd (Hooks.rerenders
               (fst (Hooks.mount (Hooks.viewModelBinderProps vmIdentifier resolver
                                    DefaultViewModelRegistry) w)) ps
               (snd (Hooks.mount (Hooks.viewModelBinderProps vmIdentifier resolver
                                    DefaultViewModelRegistry) w))))) self
    = self).
  { intros t s. rewrite !BoundViewModel_after_app.
    rewrite (BoundViewModel_after_resolver_calls t _ _ Hcalls).
    unfold hook_mount_events, hook_unmount_events.
    destruct (implements w _ onActivate), (implements _ _ onDeactivate); cbn;
      by repeat case_decide. }
  rewrite Hall. split; [apply Hsame|]. by rewrite Hsame.
Qed.

(** ** The components and the registry invariant *)

(** No step of a decorator-made Binder and no step of the hook takes the
    registry out of the states its own two methods can reach: after the
    constructor, a mount, a prop change, an unmount, and after the mount, the
    later runs and the unmount of the hook, every identifier that is a key
    still has an instance listed and no list repeats an instance. *)
Theorem components_keep_registry_reachable :
  ∀ (vmIdentifier : ViewModelIdentifier) (resolver resolver' : ViewModelResolver)
    (model model' : option ViewModel) (extra extra' : list (string * string))
    (bound : ViewModel) (ref : positive) (ps : list Hooks.UseBinderProps) (w : World),
    let p := boundProps vmIdentifier resolver model extra in
    let p' := boundProps vmIdentifier resolver' model' extra' in
    let this := {| props := p; state_model := bound; viewRef := ref |} in
    let h := Hooks.viewModelBinderProps vmIdentifier resolver DefaultViewModelRegistry in
    let mounted := Hooks.mount h w in
    let rerendered := Hooks.rerenders (fst mounted) ps (snd mounted) in
    reachable (buckets w) →
    reachable (buckets (snd (Binder_constructor p ref w)))
    ∧ reachable (buckets (snd (componentDidMount this w)))
    ∧ reachable (buckets (snd (receiveProps this p' w)))
    ∧ reachable (buckets (snd (componentWillUnmount this w)))
    ∧ reachable (buckets (snd mounted))
    ∧ reachable (buckets (snd rerendered))
    ∧ reachable (buckets (snd (Hooks.unmount (fst rerendered) (snd rerendered)))).
Proof.
  intros vmIdentifier resolver resolver' model model' extra extra' bound ref ps w.
  cbv zeta. intros Hb.
  destruct (mount_registers_then_activates vmIdentifier resolver w)
    as (Hcell & Hmodel & Hb1 & _).
  destruct (rerenders_keep_model ps _
              (snd (Hooks.mount (Hooks.viewModelBinderProps vmIdentifier resolver
                                   DefaultViewModelRegistry) w)) _ Hcell Hmodel)
    as (_ & _ & Hclean & Hb2 & _).
  assert (Hmounted : reachable (buckets (snd (Hooks.mount
            (Hooks.viewModelBinderProps vmIdentifier resolver
               DefaultViewModelRegistry) w)))).
  { rewrite Hb1. by apply reachable_add. }
  split_and!.
  - rewrite Binder_constructor_run. by apply reachable_add.
  - by rewrite componentDidMount_buckets.
  - destruct (decide (model = model')) as [<-|Hne].
    + pose proof (receiveProps_unchanged vmIdentifier resolver' extra'
                    {| props := boundProps vmIdentifier resolver model extra;
                       state_model := bound; viewRef := ref |} w) as Hsame.
      cbn [props viewModel boundProps] in Hsame. by rewrite Hsame.
    + rewrite (receiveProps_run vmIdentifier resolver' model' extra'
                 {| props := boundProps vmIdentifier resolver model extra;
                    state_model := bound; viewRef := ref |} w Hne).
      by apply reachable_add, reachable_remove.
  - destruct (componentWillUnmount_trace vmIdentifier model extra resolver
                {| props := boundProps vmIdentifier resolver model extra;
                   state_model := bound; viewRef := ref |} w eq_refl) as [_ ->].
    by apply reachable_remove.
  - exact Hmounted.
  - by rewrite Hb2.
  - unfold Hooks.unmount. rewrite Hclean, hook_cleanup_buckets.
    apply reachable_remove. by rewrite Hb2.
Qed.

Lemma components_keep_registry_reachable_witness :
  let this := {| props := boundProps (IdString "UserVM") singleton_resolver None [];
                 state_model := Instance 1; viewRef := 7%positive |} in
  let p' := boundProps (IdString "UserVM") singleton_resolver (Some (Instance 2)) [] in
  reachable (buckets world0)
  ∧ reachable (buckets (snd (receiveProps this p' world0)))
  ∧ registry_invariant (buckets (snd (receiveProps this p' world0))).
Proof.
  assert (H0 : reachable (buckets world0)) by apply reachable_empty.
  destruct (components_keep_registry_reachable (IdString "UserVM")
              singleton_resolver singleton_resolver None (Some (Instance 2)) [] []
              (Instance 1) 7%positive [] world0 H0)
    as (_ & _ & Hupdate & _).
  cbv zeta. split_and!; [exact H0 | exact Hupdate |].
  by apply reachable_invariant.
Defined.

(** ** Props of the caller with the names of the Binder's own *)

